(** * Trace viewer action list (packages/trace-viewer/src/ui/actionList.tsx)

    A shallow embedding of the [ActionList] and [ActionListItem] components
    and of the [scrollIntoViewIfNeeded] helper, followed by the properties of
    keyboard navigation, pointer handling and per-row display data.

    Conventions of the embedding:
    - a value of type [T | undefined] is an [option T], [None] being
      [undefined]; a DOM reference that may also be [null] is a [Nullable];
    - array indices and lengths are integers ([Z]), because the source
      computes with [-1] and with [length - 1];
    - timestamps and counts are integral JavaScript numbers ([Z]), on which
      subtraction is exact and truthiness is "different from zero";
    - the callbacks of the host ([onSelected], [onHighlighted],
      [setSelectedTab]), the event methods and the DOM scroll methods are
      recorded, in call order, in the trace of a small writer/exception
      monad [Js]. *)

From Stdlib Require Import ZArith List String Bool Lia.
From Stdlib Require Decimal DecimalFacts DecimalZ DecimalString.
Import ListNotations.

Set Warnings "-register-all".

Local Open Scope string_scope.
Local Open Scope list_scope.
Local Open Scope Z_scope.

(** ** JavaScript values used by the component *)

(** A reference that can be [undefined], [null] or an object. *)
Inductive Nullable (A : Type) : Type :=
| js_undefined
| js_null
| js_value (a : A).

Arguments js_undefined {A}.
Arguments js_null {A}.
Arguments js_value {A} a.

(** [!!r] for a reference. *)
Definition truthy_ref {A : Type} (r : Nullable A) : bool :=
  match r with
  | js_value _ => true
  | _ => false
  end.

(** [!!n] for an integral number. *)
Definition truthy_number (n : Z) : bool := negb (n =? 0).

(** [!!s] for a string. *)
Definition truthy_string (s : string) : bool := negb (String.eqb s "").

(** [String(n)] for an integral number. *)
Definition number_toString (n : Z) : string :=
  DecimalString.NilZero.string_of_int (Z.to_int n).

(** ** Trace events (the parts of [@trace/trace] the component reads) *)

Module Trace.

(** [metadata.params]: the fields read by the list. *)
Record Params : Type := {
  selector : option string;
  url : option string
}.

(** [metadata.error]: [metadata.error?.error?.message]. *)
Record ErrorDetails : Type := { message : option string }.
Record SerializedError : Type := { error_value : option ErrorDetails }.

Record CallMetadata : Type := {
  id : string;
  apiName : string;
  method : string;
  params : Params;
  startTime : Z;
  endTime : option Z;
  error : option SerializedError
}.

(** An action is a JavaScript object: [ref] is its identity, the only
    thing [===] and [Array.prototype.indexOf] look at. *)
Record ActionTraceEvent : Type := {
  ref : nat;
  metadata : CallMetadata
}.

End Trace.

Abbreviation ActionTraceEvent := Trace.ActionTraceEvent.

(** [a === b] on two action objects. *)
Definition strict_equal (a b : ActionTraceEvent) : bool :=
  Nat.eqb (Trace.ref a) (Trace.ref b).

(** [x === a] where [x] may be [undefined]. *)
Definition strict_equal_opt (x : option ActionTraceEvent) (a : ActionTraceEvent) : bool :=
  match x with
  | Some b => strict_equal b a
  | None => false
  end.

(** Reference identity, as a proposition. *)
Definition same_object (a b : ActionTraceEvent) : Prop :=
  Trace.ref a = Trace.ref b.

(** ** Arrays *)

(** [arr.indexOf(x)], scanning from [i]. *)
Fixpoint indexOf_from (arr : list ActionTraceEvent) (x : ActionTraceEvent) (i : Z) : Z :=
  match arr with
  | [] => -1
  | y :: rest => if strict_equal y x then i else indexOf_from rest x (i + 1)
  end.

Definition indexOf (arr : list ActionTraceEvent) (x : ActionTraceEvent) : Z :=
  indexOf_from arr x 0.

(** [arr.length]. *)
Definition array_length {A : Type} (arr : list A) : Z := Z.of_nat (List.length arr).

(** [arr[i]]: [undefined] out of range, negative indices included. *)
Definition array_get {A : Type} (arr : list A) (i : Z) : option A :=
  if (i <? 0) || (array_length arr <=? i) then None else nth_error arr (Z.to_nat i).

(** ** DOM elements, effects and the [Js] monad *)

(** What identifies a rendered element: its tag and its attributes. *)
Record Element : Type := {
  tagName : string;
  className : string;
  title : option string;
  key : option string;
  tabIndex : option Z
}.

(** The element a [ref] points to, seen through its [children] collection. *)
Record HTMLDivElement : Type := { children : list Element }.

(** [collection.item(i)]: the index is converted to an unsigned 32-bit
    integer ([-1] becomes [4294967295]); [null] out of range. *)
Definition HTMLCollection_item (c : list Element) (i : Z) : Nullable Element :=
  let u := i mod 2 ^ 32 in
  if array_length c <=? u then js_null
  else match nth_error c (Z.to_nat u) with
       | Some e => js_value e
       | None => js_null
       end.

Inductive Effect : Type :=
| event_stopPropagation
| event_preventDefault
| element_scrollIntoViewIfNeeded (target : Element) (centerIfNeeded : bool)
| element_scrollIntoView (target : Element)
| call_onSelected (action : option ActionTraceEvent)
| call_onHighlighted (action : option ActionTraceEvent)
| call_setSelectedTab (tab : string).

Inductive Exn : Type := TypeError.

(** A computation: the effects performed so far, and either the exception
    thrown or the value returned. *)
Definition Js (A : Type) : Type := (list Effect * (Exn + A))%type.

Definition ret {A : Type} (a : A) : Js A := ([], inr a).

Definition throw {A : Type} (e : Exn) : Js A := ([], inl e).

Definition perform (e : Effect) : Js unit := ([e], inr tt).

Definition bind {A B : Type} (m : Js A) (k : A -> Js B) : Js B :=
  match m with
  | (t, inl e) => (t, inl e)
  | (t, inr a) => let (t', r) := k a in (t ++ t', r)
  end.

Notation "m ;; k" := (bind m (fun _ => k))
  (at level 61, right associativity).

Definition trace {A : Type} (m : Js A) : list Effect := fst m.

Definition returns {A : Type} (m : Js A) : Prop := exists a, snd m = inr a.

Definition throws {A : Type} (m : Js A) : Prop := exists e, snd m = inl e.

(** The arguments of the calls to [onSelected] in a trace, in order. *)
Fixpoint onSelected_calls (t : list Effect) : list (option ActionTraceEvent) :=
  match t with
  | [] => []
  | call_onSelected a :: rest => a :: onSelected_calls rest
  | _ :: rest => onSelected_calls rest
  end.

(** The arguments of the calls to [onHighlighted] in a trace, in order. *)
Fixpoint onHighlighted_calls (t : list Effect) : list (option ActionTraceEvent) :=
  match t with
  | [] => []
  | call_onHighlighted a :: rest => a :: onHighlighted_calls rest
  | _ :: rest => onHighlighted_calls rest
  end.

(** The arguments of the calls to [setSelectedTab] in a trace, in order. *)
Fixpoint setSelectedTab_calls (t : list Effect) : list string :=
  match t with
  | [] => []
  | call_setSelectedTab s :: rest => s :: setSelectedTab_calls rest
  | _ :: rest => setSelectedTab_calls rest
  end.

(** The scroll requests of a trace, in order. *)
Fixpoint scroll_calls (t : list Effect) : list Effect :=
  match t with
  | [] => []
  | element_scrollIntoViewIfNeeded e b :: rest =>
      element_scrollIntoViewIfNeeded e b :: scroll_calls rest
  | element_scrollIntoView e :: rest => element_scrollIntoView e :: scroll_calls rest
  | _ :: rest => scroll_calls rest
  end.

(** ** Virtual DOM *)

Record Listeners : Type := {
  onClick : option (Js unit);
  onMouseEnter : option (Js unit);
  onMouseLeave : option (Js unit);
  onKeyDown : option (string -> Js unit)
}.

Definition no_listeners : Listeners :=
  {| onClick := None; onMouseEnter := None; onMouseLeave := None; onKeyDown := None |}.

(** What a JSX expression evaluates to. [false], [undefined] and the empty
    string produce no node; a number is shown as text. *)
Inductive JSX : Type :=
| jsx_false
| jsx_undefined
| jsx_string (s : string)
| jsx_number (n : Z)
| jsx_element (e : Element) (l : Listeners) (content : list JSX).

(** [b && x] for a boolean [b]. *)
Definition and_bool (b : bool) (x : JSX) : JSX :=
  if b then x else jsx_false.

(** [s && x] for an optional string [s]: a falsy [s] is the result. *)
Definition and_string (s : option string) (x : JSX) : JSX :=
  match s with
  | None => jsx_undefined
  | Some v => if truthy_string v then x else jsx_string v
  end.

(** The DOM built from a JSX value. *)
Inductive DomNode : Type :=
| dom_text (s : string)
| dom_element (e : Element) (l : Listeners) (childNodes : list DomNode).

Fixpoint mount (j : JSX) : list DomNode :=
  match j with
  | jsx_false => []
  | jsx_undefined => []
  | jsx_string s => if truthy_string s then [dom_text s] else []
  | jsx_number n => [dom_text (number_toString n)]
  | jsx_element e l content => [dom_element e l (flat_map mount content)]
  end.

(** [node.children]: the element children only. *)
Fixpoint element_children (nodes : list DomNode) : list Element :=
  match nodes with
  | [] => []
  | dom_text _ :: rest => element_children rest
  | dom_element e _ _ :: rest => e :: element_children rest
  end.

Definition child_node (n : DomNode) (i : nat) : option DomNode :=
  match n with
  | dom_text _ => None
  | dom_element _ _ childNodes => nth_error childNodes i
  end.

Definition click_listener (n : DomNode) : Js unit :=
  match n with
  | dom_element _ l _ =>
      match onClick l with
      | Some h => h
      | None => ret tt
      end
  | dom_text _ => ret tt
  end.

(** A click on the node reached from [n] by [path] (child positions): the
    click listeners run from the target outwards (bubbling); none of the
    click listeners of this component stops the propagation. *)
Fixpoint dispatch_click (n : DomNode) (path : list nat) : Js unit :=
  match path with
  | [] => click_listener n
  | i :: rest =>
      match child_node n i with
      | Some c => dispatch_click c rest ;; click_listener n
      | None => click_listener n
      end
  end.

(** A node is quiet when a click on it, or anywhere below it, runs no
    listener that does anything. *)
Definition quiet (n : DomNode) : Prop :=
  forall path, dispatch_click n path = ret tt.

(** ** Collaborators

    The functions and the type the component imports from other modules
    ([msToString], [modelUtil.stats], [asLocator], [Language]) and what the
    browser provides are parameters of the development. *)

Record Stats : Type := { errors : Z; warnings : Z }.

Class Host : Type := {
  (** [Language], a union of string literals: every value of it is a
      non-empty string, hence truthy. *)
  Language : Type;
  (** the literal ['javascript'] *)
  javascript : Language;
  (** [msToString] of [@web/uiUtils] *)
  msToString : Z -> string;
  (** [asLocator] of [@isomorphic/locatorGenerators] *)
  asLocator : Language -> string -> string;
  (** [modelUtil.stats] *)
  stats : ActionTraceEvent -> Stats;
  (** whether the browser defines [scrollIntoViewIfNeeded] on an element *)
  has_scrollIntoViewIfNeeded : Element -> bool
}.

Section Components.

Context {host : Host}.

Record ActionListProps : Type := {
  actions : list ActionTraceEvent;
  selectedAction : option ActionTraceEvent;
  highlightedAction : option ActionTraceEvent;
  sdkLanguage : option Language
}.

(** *** [scrollIntoViewIfNeeded] *)

(** [element.scrollIntoViewIfNeeded(false)]: a [TypeError] on a missing
    receiver or a missing method. *)
Definition call_scrollIntoViewIfNeeded (element : Nullable Element) (arg : bool) : Js unit :=
  match element with
  | js_value e =>
      if has_scrollIntoViewIfNeeded e
      then perform (element_scrollIntoViewIfNeeded e arg)
      else throw TypeError
  | _ => throw TypeError
  end.

(** [element?.scrollIntoView()]. *)
Definition optional_call_scrollIntoView (element : Nullable Element) : Js unit :=
  match element with
  | js_value e => perform (element_scrollIntoView e)
  | _ => ret tt
  end.

(** [!!(element as any)?.scrollIntoViewIfNeeded]. *)
Definition optional_get_scrollIntoViewIfNeeded (element : Nullable Element) : bool :=
  match element with
  | js_value e => has_scrollIntoViewIfNeeded e
  | _ => false
  end.

Definition scrollIntoViewIfNeeded (element : Nullable Element) : Js unit :=
  if negb (truthy_ref element) then ret tt
  else if optional_get_scrollIntoViewIfNeeded element
       then call_scrollIntoViewIfNeeded element false
       else optional_call_scrollIntoView element.

(** *** [ActionListItem] *)

(** [const locator = metadata.params.selector ? asLocator(sdkLanguage ||
    'javascript', metadata.params.selector) : undefined]; a supplied
    language is truthy, so [||] falls back only on [undefined]. *)
Definition locator (sdkLanguage : option Language) (action : ActionTraceEvent) : option string :=
  match Trace.selector (Trace.params (Trace.metadata action)) with
  | Some sel =>
      if truthy_string sel
      then Some (asLocator (match sdkLanguage with
                            | Some l => l
                            | None => javascript
                            end) sel)
      else None
  | None => None
  end.

(** [const error = metadata.error?.error?.message] *)
Definition error_message (action : ActionTraceEvent) : option string :=
  match Trace.error (Trace.metadata action) with
  | Some e =>
      match Trace.error_value e with
      | Some d => Trace.message d
      | None => None
      end
  | None => None
  end.

Definition div (cls : string) : Element :=
  {| tagName := "div"; className := cls; title := None; key := None; tabIndex := None |}.

Definition div_titled (cls : string) (t : string) : Element :=
  {| tagName := "div"; className := cls; title := Some t; key := None; tabIndex := None |}.

Definition span (cls : string) : Element :=
  {| tagName := "span"; className := cls; title := None; key := None; tabIndex := None |}.

(** The text of the [action-duration] element. *)
Definition duration_text (action : ActionTraceEvent) : string :=
  let metadata := Trace.metadata action in
  match Trace.endTime metadata with
  | Some e =>
      if truthy_number e
      then msToString (e - Trace.startTime metadata)
      else "Timed Out"
  | None => "Timed Out"
  end.

(** One badge of the [action-icons] element. *)
Definition action_icon (codicon : string) (count : Z) : JSX :=
  jsx_element (div "action-icon") no_listeners
    [ jsx_element (span codicon) no_listeners [];
      jsx_element (span "action-icon-value") no_listeners [jsx_number count] ].

(** The children of the [action-icons] element. *)
Definition action_icons_content (action : ActionTraceEvent) : list JSX :=
  let s := stats action in
  [ and_bool (truthy_number (errors s)) (action_icon "codicon codicon-error" (errors s));
    and_bool (truthy_number (warnings s)) (action_icon "codicon codicon-warning" (warnings s)) ].

(** The children of the [action-title] element. *)
Definition action_title_content (props : ActionListProps) (action : ActionTraceEvent) : list JSX :=
  let metadata := Trace.metadata action in
  let loc := locator (sdkLanguage props) action in
  let u := Trace.url (Trace.params metadata) in
  [ jsx_element (span "") no_listeners [jsx_string (Trace.apiName metadata)];
    and_string loc
      (jsx_element (div_titled "action-selector" (match loc with Some v => v | None => "" end))
         no_listeners [jsx_string (match loc with Some v => v | None => "" end)]);
    and_bool (String.eqb (Trace.method metadata) "goto")
      (and_string u
         (jsx_element (div_titled "action-url" (match u with Some v => v | None => "" end))
            no_listeners [jsx_string (match u with Some v => v | None => "" end)])) ].

(** The listeners of a row. *)
Definition ActionListItem_onClick (action : ActionTraceEvent) : Js unit :=
  perform (call_onSelected (Some action)).

Definition ActionListItem_onMouseEnter (action : ActionTraceEvent) : Js unit :=
  perform (call_onHighlighted (Some action)).

Definition ActionListItem_onMouseLeave (props : ActionListProps) (action : ActionTraceEvent) : Js unit :=
  if strict_equal_opt (highlightedAction props) action
  then perform (call_onHighlighted None)
  else ret tt.

Definition action_icons_onClick : Js unit :=
  perform (call_setSelectedTab "console").

Definition ActionListItem (props : ActionListProps) (action : ActionTraceEvent) : JSX :=
  let metadata := Trace.metadata action in
  let selectedSuffix :=
    if strict_equal_opt (selectedAction props) action then " selected" else "" in
  let highlightedSuffix :=
    if strict_equal_opt (highlightedAction props) action then " highlighted" else "" in
  let error := error_message action in
  jsx_element
    {| tagName := "div";
       className := ("action-entry" ++ selectedSuffix ++ highlightedSuffix)%string;
       title := None;
       key := Some (Trace.id metadata);
       tabIndex := None |}
    {| onClick := Some (ActionListItem_onClick action);
       onMouseEnter := Some (ActionListItem_onMouseEnter action);
       onMouseLeave := Some (ActionListItem_onMouseLeave props action);
       onKeyDown := None |}
    [ jsx_element (div "action-title") no_listeners (action_title_content props action);
      jsx_element (div "action-duration") no_listeners [jsx_string (duration_text action)];
      jsx_element (div "action-icons")
        {| onClick := Some action_icons_onClick;
           onMouseEnter := None; onMouseLeave := None; onKeyDown := None |}
        (action_icons_content action);
      and_string error
        (jsx_element (div_titled "codicon codicon-issues" (match error with Some v => v | None => "" end))
           no_listeners []) ].

(** *** [ActionList] *)

(** The children of the [action-list-content] element. *)
Definition action_list_content (props : ActionListProps) : list JSX :=
  and_bool (array_length (actions props) =? 0)
    (jsx_element (div "no-actions-entry") no_listeners [jsx_string "No actions recorded"])
  :: map (ActionListItem props) (actions props).

(** [const index = selectedAction ? actions.indexOf(selectedAction) : -1] *)
Definition index (props : ActionListProps) : Z :=
  match selectedAction props with
  | Some a => indexOf (actions props) a
  | None => -1
  end.

(** The value of [newIndex] after the two [if] statements. *)
Definition newIndex (props : ActionListProps) (key : string) : Z :=
  let index := index props in
  let newIndex := index in
  let newIndex :=
    if String.eqb key "ArrowDown"
    then (if index =? -1 then 0 else Z.min (index + 1) (array_length (actions props) - 1))
    else newIndex in
  let newIndex :=
    if String.eqb key "ArrowUp"
    then (if index =? -1 then array_length (actions props) - 1 else Z.max (index - 1) 0)
    else newIndex in
  newIndex.

(** [actionListRef.current?.children.item(i)] *)
Definition ref_child (current : Nullable HTMLDivElement) (i : Z) : Nullable Element :=
  match current with
  | js_value d => HTMLCollection_item (children d) i
  | _ => js_undefined
  end.

(** The key-down listener of the list, [current] being what
    [actionListRef.current] holds when the event arrives. *)
Definition ActionList_onKeyDown (props : ActionListProps)
    (current : Nullable HTMLDivElement) (key : string) : Js unit :=
  if negb (String.eqb key "ArrowDown") && negb (String.eqb key "ArrowUp") then ret tt
  else
    perform event_stopPropagation ;;
    perform event_preventDefault ;;
    let newIndex := newIndex props key in
    let element := ref_child current newIndex in
    scrollIntoViewIfNeeded element ;;
    perform (call_onSelected (array_get (actions props) newIndex)).

(** The element [actionListRef] points to once the list is rendered. *)
Definition actionListRef_mounted (props : ActionListProps) : Nullable HTMLDivElement :=
  js_value {| children := element_children (flat_map mount (action_list_content props)) |}.

Definition ActionList (props : ActionListProps) : JSX :=
  jsx_element (div "action-list vbox") no_listeners
    [ jsx_element
        {| tagName := "div"; className := "action-list-content"; title := None;
           key := None; tabIndex := Some 0 |}
        {| onClick := None; onMouseEnter := None; onMouseLeave := None;
           onKeyDown := Some (ActionList_onKeyDown props (actionListRef_mounted props)) |}
        (action_list_content props) ].

End Components.

(** ** Observing the rendered tree *)

Definition jsx_listeners (j : JSX) : Listeners :=
  match j with
  | jsx_element _ l _ => l
  | _ => no_listeners
  end.

Definition dom_childNodes (n : DomNode) : list DomNode :=
  match n with
  | dom_element _ _ childNodes => childNodes
  | dom_text _ => []
  end.

(** A badge as it appears in the DOM. *)
Definition dom_action_icon (codicon : string) (count : Z) : DomNode :=
  dom_element
    {| tagName := "div"; className := "action-icon"; title := None; key := None; tabIndex := None |}
    no_listeners
    [ dom_element
        {| tagName := "span"; className := codicon; title := None; key := None; tabIndex := None |}
        no_listeners [];
      dom_element
        {| tagName := "span"; className := "action-icon-value"; title := None; key := None;
           tabIndex := None |}
        no_listeners [dom_text (number_toString count)] ].

Section Observations.

Context {host : Host}.

(** The DOM node of one row. *)
Definition row_dom (props : ActionListProps) (action : ActionTraceEvent) : DomNode :=
  match mount (ActionListItem props action) with
  | n :: _ => n
  | [] => dom_text ""
  end.

(** The DOM node of the whole list. *)
Definition list_dom (props : ActionListProps) : DomNode :=
  match mount (ActionList props) with
  | n :: _ => n
  | [] => dom_text ""
  end.

(** The position of the [action-icons] element among the child nodes of
    a row: after [action-title] and [action-duration]. *)
Definition action_icons_position : nat := 2%nat.

(** [highlightedAction === action], as a proposition. *)
Definition is_highlighted (props : ActionListProps) (action : ActionTraceEvent) : Prop :=
  exists h, highlightedAction props = Some h /\ same_object h action.

(** No element of the sequence is the selected object (or nothing is
    selected). *)
Definition selection_absent (props : ActionListProps) : Prop :=
  match selectedAction props with
  | None => True
  | Some a => forall x, In x (actions props) -> ~ same_object x a
  end.

(** [i] is the position of the selected item in the sequence: the first
    index holding the selected object, or [-1] when nothing is selected or
    the selected object is not in the sequence. *)
Definition position_of_selected (props : ActionListProps) (i : Z) : Prop :=
  match selectedAction props with
  | None => i = -1
  | Some a =>
      (i = -1 /\ forall x, In x (actions props) -> ~ same_object x a)
      \/ (exists x, array_get (actions props) i = Some x /\ same_object x a
          /\ forall j y, 0 <= j < i -> array_get (actions props) j = Some y ->
                         ~ same_object y a)
  end.

End Observations.

(** ** A concrete host and concrete actions, to run the component on *)

Module Sample.

(** Stand-ins for the collaborators: languages are their tags, the time
    formatter prints milliseconds, the locator generator joins its two
    arguments, the third action carries two warnings, and the browser
    has no [scrollIntoViewIfNeeded]. *)
Definition host : Host := {|
  Language := string;
  javascript := "javascript";
  msToString := fun ms => if ms =? 0 then "0" else (number_toString ms ++ "ms")%string;
  asLocator := fun lang sel => (lang ++ ":" ++ sel)%string;
  stats := fun a => if Nat.eqb (Trace.ref a) 3
                    then {| errors := 0; warnings := 2 |}
                    else {| errors := 0; warnings := 0 |};
  has_scrollIntoViewIfNeeded := fun _ => false
|}.

Definition call (name : string) (sel : option string) (t0 : Z) (t1 : option Z)
  : Trace.CallMetadata :=
  {| Trace.id := name; Trace.apiName := name; Trace.method := "click";
     Trace.params := {| Trace.selector := sel; Trace.url := None |};
     Trace.startTime := t0; Trace.endTime := t1; Trace.error := None |}.

Definition A : ActionTraceEvent :=
  {| Trace.ref := 1; Trace.metadata := call "call@1" None 0 (Some 100) |}.

Definition B : ActionTraceEvent :=
  {| Trace.ref := 2; Trace.metadata := call "call@2" None 100 None |}.

Definition C : ActionTraceEvent :=
  {| Trace.ref := 3; Trace.metadata := call "call@3" (Some "button.submit") 200 (Some 250) |}.

(** An action that starts and ends at time [0]. *)
Definition instant : ActionTraceEvent :=
  {| Trace.ref := 4; Trace.metadata := call "call@4" None 0 (Some 0) |}.

(** An action whose selector is the empty string. *)
Definition blank : ActionTraceEvent :=
  {| Trace.ref := 5; Trace.metadata := call "call@5" (Some "") 0 (Some 10) |}.

Definition props (items : list ActionTraceEvent) (selected : option ActionTraceEvent)
  : @ActionListProps host :=
  @Build_ActionListProps host items selected None (Some "python").

End Sample.

(** ** The rest of the component: row effect, row elements, selection *)

(** The objects of a sequence are pairwise different. *)
Definition distinct_objects (arr : list ActionTraceEvent) : Prop :=
  NoDup (map Trace.ref arr).


Section RowEffect.

Context {host : Host}.

(** The body of the effect of a row:
    [if (divRef.current && selectedAction === action)
       scrollIntoViewIfNeeded(divRef.current)],
    [current] being what [divRef.current] holds when the effect runs. *)
Definition ActionListItem_effect (props : ActionListProps) (action : ActionTraceEvent)
    (current : Nullable Element) : Js unit :=
  if truthy_ref current && strict_equal_opt (selectedAction props) action
  then scrollIntoViewIfNeeded current
  else ret tt.

(** The element a row is rendered as: tag, class and key. *)
Definition row_element (props : ActionListProps) (action : ActionTraceEvent) : Element :=
  match ActionListItem props action with
  | jsx_element e _ _ => e
  | _ => div ""
  end.

(** The one scroll request the helper issues for an element. *)
Definition scroll_request (e : Element) : Effect :=
  if has_scrollIntoViewIfNeeded e
  then element_scrollIntoViewIfNeeded e false
  else element_scrollIntoView e.

(** The props of a later render in which the host has made [a] the
    selection and left everything else as it was. *)
Definition with_selected (props : ActionListProps) (a : ActionTraceEvent) : ActionListProps :=
  {| actions := actions props;
     selectedAction := Some a;
     highlightedAction := highlightedAction props;
     sdkLanguage := sdkLanguage props |}.

(** The class of a row element carries the [selected] marker. *)
Definition marked_selected (e : Element) : Prop :=
  className e = "action-entry selected"%string
  \/ className e = "action-entry selected highlighted"%string.

(** The class of a row element carries the [highlighted] marker. *)
Definition marked_highlighted (e : Element) : Prop :=
  className e = "action-entry highlighted"%string
  \/ className e = "action-entry selected highlighted"%string.

(** The props of the next render when the host answers a key press by
    making the argument of the [onSelected] call the selection (and keeps
    the rest); without such a call, or with [undefined], nothing changes. *)
Definition press (key : string) (props : ActionListProps) : ActionListProps :=
  match onSelected_calls (trace (ActionList_onKeyDown props (actionListRef_mounted props) key)) with
  | [Some a] => with_selected props a
  | _ => props
  end.

(** [n] presses of the same key in a row. *)
Fixpoint presses (n : nat) (key : string) (props : ActionListProps) : ActionListProps :=
  match n with
  | O => props
  | S m => press key (presses m key props)
  end.

End RowEffect.

Module Sample2.

(** A navigation that failed: it has a URL and an error message. *)
Definition failed_goto : ActionTraceEvent :=
  {| Trace.ref := 6;
     Trace.metadata :=
       {| Trace.id := "call@6"; Trace.apiName := "page.goto"; Trace.method := "goto";
          Trace.params := {| Trace.selector := None; Trace.url := Some "https://example.com" |};
          Trace.startTime := 300; Trace.endTime := Some 900;
          Trace.error :=
            Some {| Trace.error_value :=
                      Some {| Trace.message := Some "net::ERR_ABORTED" |} |} |} |}.

End Sample2.

(** * Properties *)

(** ** The [Js] monad and traces *)

Lemma bind_perform (A : Type) (e : Effect) (k : Js A) :
  (perform e ;; k) = (e :: fst k, snd k).
Proof. unfold bind, perform. destruct k as [t r]. reflexivity. Qed.

Lemma bind_ret (A : Type) (k : Js A) : (ret tt ;; k) = k.
Proof. unfold bind, ret. destruct k as [t r]. reflexivity. Qed.

Lemma bind_returning (A : Type) (t : list Effect) (k : Js A) :
  ((t, inr tt) ;; k) = (t ++ fst k, snd k).
Proof. unfold bind. destruct k as [t' r]. reflexivity. Qed.

Lemma onSelected_calls_app (t1 t2 : list Effect) :
  onSelected_calls (t1 ++ t2) = onSelected_calls t1 ++ onSelected_calls t2.
Proof.
  induction t1 as [|e t1 IH]; simpl; [reflexivity|].
  destruct e; simpl; rewrite IH; reflexivity.
Qed.

(** ** Numbers as text *)

Lemma to_int_not_nil (n : Z) :
  Z.to_int n <> Decimal.Pos Decimal.Nil /\ Z.to_int n <> Decimal.Neg Decimal.Nil.
Proof.
  rewrite <- (DecimalZ.of_to n) at 1 2. rewrite DecimalZ.to_of.
  destruct (Z.to_int n) as [d|d]; simpl.
  - split; [|discriminate]. intros [= H]. revert H. apply DecimalFacts.unorm_nonnil.
  - destruct (Decimal.nzhead d) eqn:E; split; discriminate.
Qed.

(** Two counts shown by the same text are the same count. *)
Lemma number_toString_inj (n m : Z) :
  number_toString n = number_toString m -> n = m.
Proof.
  unfold number_toString. intros H. apply DecimalZ.to_int_inj.
  apply (f_equal DecimalString.NilZero.int_of_string) in H.
  destruct (to_int_not_nil n), (to_int_not_nil m).
  rewrite !DecimalString.NilZero.isi in H by assumption. congruence.
Qed.

(** ** Arrays *)

Lemma strict_equal_true (a b : ActionTraceEvent) :
  strict_equal a b = true <-> same_object a b.
Proof. unfold strict_equal, same_object. apply Nat.eqb_eq. Qed.

Lemma strict_equal_false (a b : ActionTraceEvent) :
  strict_equal a b = false <-> ~ same_object a b.
Proof. unfold strict_equal, same_object. apply Nat.eqb_neq. Qed.

Lemma array_length_nonneg (A : Type) (arr : list A) : 0 <= array_length arr.
Proof. unfold array_length. lia. Qed.

Lemma array_length_cons (A : Type) (x : A) (arr : list A) :
  array_length (x :: arr) = array_length arr + 1.
Proof. unfold array_length. simpl List.length. lia. Qed.

Lemma array_length_positive (A : Type) (arr : list A) :
  arr <> [] -> 0 < array_length arr.
Proof.
  destruct arr as [|x arr]; [congruence|].
  intros _. rewrite array_length_cons. pose proof (array_length_nonneg A arr). lia.
Qed.

Lemma array_get_head (A : Type) (x : A) (arr : list A) :
  array_get (x :: arr) 0 = Some x.
Proof.
  unfold array_get. rewrite array_length_cons.
  pose proof (array_length_nonneg A arr).
  replace (0 <? 0) with false by reflexivity.
  replace (array_length arr + 1 <=? 0) with false by (symmetry; apply Z.leb_gt; lia).
  reflexivity.
Qed.

Lemma array_get_tail (A : Type) (x : A) (arr : list A) (i : Z) :
  0 <= i -> array_get (x :: arr) (i + 1) = array_get arr i.
Proof.
  intros Hi. unfold array_get. rewrite array_length_cons.
  replace (i + 1 <? 0) with false by (symmetry; apply Z.ltb_ge; lia).
  replace (i <? 0) with false by (symmetry; apply Z.ltb_ge; lia).
  simpl orb.
  destruct (Z.leb_spec (array_length arr) i) as [Hle|Hlt].
  - replace (array_length arr + 1 <=? i + 1) with true by (symmetry; apply Z.leb_le; lia).
    reflexivity.
  - replace (array_length arr + 1 <=? i + 1) with false by (symmetry; apply Z.leb_gt; lia).
    replace (Z.to_nat (i + 1)) with (S (Z.to_nat i)) by lia.
    reflexivity.
Qed.

Lemma array_get_in_range (A : Type) (arr : list A) (i : Z) :
  0 <= i < array_length arr -> exists x, array_get arr i = Some x.
Proof.
  revert i. induction arr as [|y arr IH]; intros i Hi.
  - unfold array_length in Hi. simpl in Hi. lia.
  - rewrite array_length_cons in Hi.
    destruct (Z.eq_dec i 0) as [->|Hne].
    + exists y. apply array_get_head.
    + replace i with ((i - 1) + 1) by lia.
      rewrite array_get_tail by lia. apply IH. lia.
Qed.

Lemma array_get_In (A : Type) (arr : list A) (i : Z) (x : A) :
  array_get arr i = Some x -> In x arr.
Proof.
  unfold array_get. destruct ((i <? 0) || (array_length arr <=? i)); [discriminate|].
  apply nth_error_In.
Qed.

Lemma array_get_last (A : Type) (init : list A) (x : A) :
  array_get (init ++ [x]) (array_length (init ++ [x]) - 1) = Some x.
Proof.
  induction init as [|y init IH].
  - apply array_get_head.
  - change ((y :: init) ++ [x]) with (y :: (init ++ [x])).
    rewrite array_length_cons.
    replace (array_length (init ++ [x]) + 1 - 1)
      with ((array_length (init ++ [x]) - 1) + 1) by lia.
    rewrite array_get_tail; [exact IH|].
    assert (0 < array_length (init ++ [x])).
    { apply array_length_positive. destruct init; discriminate. }
    lia.
Qed.

(** [indexOf] returns [-1] exactly when no element is the object looked
    for, and otherwise the first position that holds it. *)
Lemma indexOf_from_spec (arr : list ActionTraceEvent) (x : ActionTraceEvent) (i : Z) :
  0 <= i ->
  (indexOf_from arr x i = -1 /\ forall y, In y arr -> ~ same_object y x)
  \/ (i <= indexOf_from arr x i < i + array_length arr
      /\ exists y, array_get arr (indexOf_from arr x i - i) = Some y /\ same_object y x
         /\ forall j z, 0 <= j < indexOf_from arr x i - i ->
                        array_get arr j = Some z -> ~ same_object z x).
Proof.
  revert i. induction arr as [|y arr IH]; intros i Hi.
  - left. split; [reflexivity|]. intros y [].
  - simpl indexOf_from. destruct (strict_equal y x) eqn:E.
    + right. rewrite array_length_cons. pose proof (array_length_nonneg _ arr).
      split; [lia|]. exists y. replace (i - i) with 0 by lia.
      split; [apply array_get_head|]. split; [apply strict_equal_true; exact E|].
      intros j z Hj. lia.
    + apply strict_equal_false in E.
      destruct (IH (i + 1)) as [[Hr Hall]|[Hr [z [Hz [Hs Hbefore]]]]]; [lia| |].
      * left. split; [exact Hr|]. intros w [<-|Hw]; [exact E|]. apply Hall. exact Hw.
      * right. rewrite array_length_cons. split; [lia|].
        exists z. split.
        { replace (indexOf_from arr x (i + 1) - i)
            with ((indexOf_from arr x (i + 1) - (i + 1)) + 1) by lia.
          rewrite array_get_tail by lia. exact Hz. }
        split; [exact Hs|].
        intros j w Hj Hw. destruct (Z.eq_dec j 0) as [->|Hne].
        { rewrite array_get_head in Hw. injection Hw as <-. exact E. }
        { replace j with ((j - 1) + 1) in Hw by lia.
          rewrite array_get_tail in Hw by lia.
          apply (Hbefore (j - 1) w); [lia|exact Hw]. }
Qed.

Section KeyboardNavigation.

Context {host : Host}.

(** ** The scroll helper *)

Lemma scrollIntoViewIfNeeded_element (e : Element) :
  scrollIntoViewIfNeeded (js_value e) =
  perform (if has_scrollIntoViewIfNeeded e
           then element_scrollIntoViewIfNeeded e false
           else element_scrollIntoView e).
Proof.
  unfold scrollIntoViewIfNeeded, call_scrollIntoViewIfNeeded. simpl.
  destruct (has_scrollIntoViewIfNeeded e); reflexivity.
Qed.

Lemma scrollIntoViewIfNeeded_returns (element : Nullable Element) :
  snd (scrollIntoViewIfNeeded element) = inr tt.
Proof.
  destruct element as [| |e]; try reflexivity.
  rewrite scrollIntoViewIfNeeded_element. reflexivity.
Qed.

Lemma scrollIntoViewIfNeeded_no_onSelected (element : Nullable Element) :
  onSelected_calls (trace (scrollIntoViewIfNeeded element)) = [].
Proof.
  destruct element as [| |e]; try reflexivity.
  rewrite scrollIntoViewIfNeeded_element.
  destruct (has_scrollIntoViewIfNeeded e); reflexivity.
Qed.

(** A lookup that finds no child ([undefined] for a missing list element,
    [null] for an index out of range) leads to no scroll at all. *)
Lemma failed_lookup_is_not_scrolled (current : Nullable HTMLDivElement) (i : Z) :
  truthy_ref (ref_child current i) = false ->
  scrollIntoViewIfNeeded (ref_child current i) = ret tt.
Proof.
  destruct (ref_child current i) as [| |e]; [reflexivity|reflexivity|discriminate].
Qed.

Lemma ref_child_out_of_range (d : HTMLDivElement) (i : Z) :
  array_length (children d) <= i mod 2 ^ 32 ->
  ref_child (js_value d) i = js_null.
Proof.
  intros H. unfold ref_child, HTMLCollection_item.
  apply Z.leb_le in H. rewrite H. reflexivity.
Qed.

(** ** The key-down listener *)

Lemma index_range (props : ActionListProps) :
  -1 <= index props < array_length (actions props).
Proof.
  unfold index. pose proof (array_length_nonneg _ (actions props)).
  destruct (selectedAction props) as [a|]; [|lia].
  unfold indexOf.
  destruct (indexOf_from_spec (actions props) a 0) as [[Hr _]|[Hr _]]; lia.
Qed.

Lemma index_position (props : ActionListProps) :
  position_of_selected props (index props).
Proof.
  unfold position_of_selected, index.
  destruct (selectedAction props) as [a|]; [|reflexivity].
  unfold indexOf.
  destruct (indexOf_from_spec (actions props) a 0) as [[Hr Hall]|[Hr [y [Hy [Hs Hb]]]]];
    [lia| |].
  - left. split; assumption.
  - right. rewrite Z.sub_0_r in Hy, Hb. exists y. repeat split; assumption.
Qed.

Lemma index_absent (props : ActionListProps) :
  selection_absent props -> index props = -1.
Proof.
  unfold selection_absent, index.
  destruct (selectedAction props) as [a|]; [|reflexivity].
  intros Habs. unfold indexOf.
  destruct (indexOf_from_spec (actions props) a 0) as [[Hr _]|[_ [y [Hy [Hs _]]]]];
    [lia|exact Hr|].
  exfalso. apply (Habs y); [|exact Hs]. apply array_get_In in Hy. exact Hy.
Qed.

Lemma newIndex_ArrowDown (props : ActionListProps) :
  newIndex props "ArrowDown" =
  if index props =? -1 then 0
  else Z.min (index props + 1) (array_length (actions props) - 1).
Proof. reflexivity. Qed.

Lemma newIndex_ArrowUp (props : ActionListProps) :
  newIndex props "ArrowUp" =
  if index props =? -1 then array_length (actions props) - 1
  else Z.max (index props - 1) 0.
Proof. reflexivity. Qed.

Lemma newIndex_in_range (props : ActionListProps) (key : string) :
  actions props <> [] ->
  key = "ArrowDown" \/ key = "ArrowUp" ->
  0 <= newIndex props key < array_length (actions props).
Proof.
  intros Hne Hkey. pose proof (array_length_positive _ _ Hne).
  pose proof (index_range props).
  destruct Hkey as [-> | ->].
  - rewrite newIndex_ArrowDown. destruct (Z.eqb_spec (index props) (-1)); lia.
  - rewrite newIndex_ArrowUp. destruct (Z.eqb_spec (index props) (-1)); lia.
Qed.

(** What the listener does on an arrow key: it consumes the event, runs
    the scroll helper on the child found at [newIndex], and calls
    [onSelected] with [actions[newIndex]]. *)
Lemma ActionList_onKeyDown_arrow (props : ActionListProps)
    (current : Nullable HTMLDivElement) (key : string) :
  key = "ArrowDown" \/ key = "ArrowUp" ->
  ActionList_onKeyDown props current key =
  ([event_stopPropagation; event_preventDefault]
     ++ trace (scrollIntoViewIfNeeded (ref_child current (newIndex props key)))
     ++ [call_onSelected (array_get (actions props) (newIndex props key))],
   inr tt).
Proof.
  intros Hkey. unfold ActionList_onKeyDown.
  replace (negb (String.eqb key "ArrowDown") && negb (String.eqb key "ArrowUp"))
    with false by (destruct Hkey as [-> | ->]; reflexivity).
  rewrite !bind_perform.
  pose proof (scrollIntoViewIfNeeded_returns (ref_child current (newIndex props key))) as R.
  destruct (scrollIntoViewIfNeeded (ref_child current (newIndex props key))) as [t r].
  simpl in R. subst r. rewrite bind_returning. reflexivity.
Qed.

Lemma ActionList_onKeyDown_onSelected (props : ActionListProps)
    (current : Nullable HTMLDivElement) (key : string) :
  key = "ArrowDown" \/ key = "ArrowUp" ->
  onSelected_calls (trace (ActionList_onKeyDown props current key)) =
  [array_get (actions props) (newIndex props key)].
Proof.
  intros Hkey. rewrite (ActionList_onKeyDown_arrow props current key Hkey).
  pose proof (scrollIntoViewIfNeeded_no_onSelected
                (ref_child current (newIndex props key))) as N.
  unfold trace in *. cbn [fst]. rewrite !onSelected_calls_app, N. reflexivity.
Qed.

Lemma ActionList_onKeyDown_returns (props : ActionListProps)
    (current : Nullable HTMLDivElement) (key : string) :
  returns (ActionList_onKeyDown props current key).
Proof.
  destruct (String.eqb key "ArrowDown") eqn:Ed.
  - apply String.eqb_eq in Ed. exists tt.
    rewrite (ActionList_onKeyDown_arrow props current key (or_introl Ed)). reflexivity.
  - destruct (String.eqb key "ArrowUp") eqn:Eu.
    + apply String.eqb_eq in Eu. exists tt.
      rewrite (ActionList_onKeyDown_arrow props current key (or_intror Eu)). reflexivity.
    + exists tt. unfold ActionList_onKeyDown. rewrite Ed, Eu. reflexivity.
Qed.

(** Keys other than the two arrows are left alone. *)
Lemma ActionList_onKeyDown_other (props : ActionListProps)
    (current : Nullable HTMLDivElement) (key : string) :
  key <> "ArrowDown" -> key <> "ArrowUp" ->
  ActionList_onKeyDown props current key = ret tt.
Proof.
  intros Hd Hu. unfold ActionList_onKeyDown.
  apply String.eqb_neq in Hd. apply String.eqb_neq in Hu. rewrite Hd, Hu. reflexivity.
Qed.

End KeyboardNavigation.

Section NavigationClaims.

Context {host : Host}.

(** C1. On an empty sequence the key-down listener is not a no-op: for
    ArrowDown and for ArrowUp alike it returns without throwing, but it
    calls [onSelected] once, with [undefined] ([actions[newIndex]] read
    out of range); on ArrowDown it also scrolls the "No actions recorded"
    placeholder, the only child of the rendered list. *)
Theorem empty_list_arrow_calls_onSelected_undefined
    (selected highlighted : option ActionTraceEvent) (language : option Language)
    (current : Nullable HTMLDivElement) :
  let props := {| actions := []; selectedAction := selected;
                  highlightedAction := highlighted; sdkLanguage := language |} in
  onSelected_calls (trace (ActionList_onKeyDown props current "ArrowDown")) = [None]
  /\ onSelected_calls (trace (ActionList_onKeyDown props current "ArrowUp")) = [None]
  /\ returns (ActionList_onKeyDown props current "ArrowDown")
  /\ returns (ActionList_onKeyDown props current "ArrowUp")
  /\ scroll_calls (trace (ActionList_onKeyDown props (actionListRef_mounted props) "ArrowDown"))
     = [if has_scrollIntoViewIfNeeded (div "no-actions-entry")
        then element_scrollIntoViewIfNeeded (div "no-actions-entry") false
        else element_scrollIntoView (div "no-actions-entry")].
Proof.
  intros props.
  assert (Hi : index props = -1) by (unfold index, props; simpl; destruct selected; reflexivity).
  assert (Hd : newIndex props "ArrowDown" = 0) by (rewrite newIndex_ArrowDown, Hi; reflexivity).
  assert (Hu : newIndex props "ArrowUp" = -1) by (rewrite newIndex_ArrowUp, Hi; reflexivity).
  repeat split.
  - rewrite ActionList_onKeyDown_onSelected by (left; reflexivity). rewrite Hd. reflexivity.
  - rewrite ActionList_onKeyDown_onSelected by (right; reflexivity). rewrite Hu. reflexivity.
  - apply ActionList_onKeyDown_returns.
  - apply ActionList_onKeyDown_returns.
  - rewrite ActionList_onKeyDown_arrow by (left; reflexivity). rewrite Hd.
    change (ref_child (actionListRef_mounted props) 0)
      with (js_value (div "no-actions-entry")).
    rewrite scrollIntoViewIfNeeded_element.
    destruct (has_scrollIntoViewIfNeeded (div "no-actions-entry")); reflexivity.
Qed.

(** C2. On a non-empty sequence, with [i] the index the listener computes
    (the position of the selected item, or [-1]; always in
    [[-1, length)]), ArrowDown computes the new index [0] when [i = -1]
    and [min (i + 1) (length - 1)] otherwise, and calls [onSelected]
    exactly once, with the item at that new index, without throwing. *)
Theorem ArrowDown_selects_next (props : ActionListProps)
    (current : Nullable HTMLDivElement) (Hne : actions props <> []) :
  let i := index props in
  let n := if i =? -1 then 0 else Z.min (i + 1) (array_length (actions props) - 1) in
  position_of_selected props i
  /\ -1 <= i < array_length (actions props)
  /\ newIndex props "ArrowDown" = n
  /\ exists item,
       array_get (actions props) n = Some item
       /\ onSelected_calls (trace (ActionList_onKeyDown props current "ArrowDown"))
          = [Some item]
       /\ returns (ActionList_onKeyDown props current "ArrowDown").
Proof.
  intros i n.
  split; [apply index_position|]. split; [apply index_range|].
  split; [apply newIndex_ArrowDown|].
  pose proof (newIndex_in_range props "ArrowDown" Hne (or_introl eq_refl)) as Hr.
  rewrite newIndex_ArrowDown in Hr. fold i in Hr. fold n in Hr.
  destruct (array_get_in_range _ (actions props) n Hr) as [item Hitem].
  exists item. split; [exact Hitem|]. split; [|apply ActionList_onKeyDown_returns].
  rewrite ActionList_onKeyDown_onSelected by (left; reflexivity).
  rewrite newIndex_ArrowDown. fold i. fold n. rewrite Hitem. reflexivity.
Qed.

(** C3. On a non-empty sequence, with [i] the index the listener computes,
    ArrowUp computes the new index [length - 1] when [i = -1] and
    [max (i - 1) 0] otherwise, and calls [onSelected] exactly once, with
    the item at that new index, without throwing; for a single-item
    sequence with nothing selected the call is [onSelected] of that
    item. *)
Theorem ArrowUp_selects_previous (props : ActionListProps)
    (current : Nullable HTMLDivElement) (Hne : actions props <> []) :
  let i := index props in
  let n := if i =? -1 then array_length (actions props) - 1 else Z.max (i - 1) 0 in
  position_of_selected props i
  /\ -1 <= i < array_length (actions props)
  /\ newIndex props "ArrowUp" = n
  /\ (exists item,
        array_get (actions props) n = Some item
        /\ onSelected_calls (trace (ActionList_onKeyDown props current "ArrowUp"))
           = [Some item]
        /\ returns (ActionList_onKeyDown props current "ArrowUp"))
  /\ (forall a, actions props = [a] -> selectedAction props = None ->
        onSelected_calls (trace (ActionList_onKeyDown props current "ArrowUp")) = [Some a]).
Proof.
  intros i n.
  split; [apply index_position|]. split; [apply index_range|].
  split; [apply newIndex_ArrowUp|].
  pose proof (newIndex_in_range props "ArrowUp" Hne (or_intror eq_refl)) as Hr.
  rewrite newIndex_ArrowUp in Hr. fold i in Hr. fold n in Hr.
  split.
  - destruct (array_get_in_range _ (actions props) n Hr) as [item Hitem].
    exists item. split; [exact Hitem|]. split; [|apply ActionList_onKeyDown_returns].
    rewrite ActionList_onKeyDown_onSelected by (right; reflexivity).
    rewrite newIndex_ArrowUp. fold i. fold n. rewrite Hitem. reflexivity.
  - intros a Ha Hsel.
    rewrite ActionList_onKeyDown_onSelected by (right; reflexivity).
    rewrite newIndex_ArrowUp. unfold index. rewrite Hsel, Ha. reflexivity.
Qed.

(** C9. On a non-empty sequence, when nothing is selected or the selected
    object is not an element of the sequence, the listener works with
    index [-1]: ArrowDown calls [onSelected] with the first item and
    ArrowUp calls [onSelected] with the last item. *)
Theorem absent_selection_wraps (props : ActionListProps)
    (current : Nullable HTMLDivElement)
    (Hne : actions props <> []) (Habs : selection_absent props) :
  index props = -1
  /\ (exists first rest,
        actions props = first :: rest
        /\ onSelected_calls (trace (ActionList_onKeyDown props current "ArrowDown"))
           = [Some first])
  /\ (exists init last,
        actions props = init ++ [last]
        /\ onSelected_calls (trace (ActionList_onKeyDown props current "ArrowUp"))
           = [Some last]).
Proof.
  pose proof (index_absent props Habs) as Hi.
  split; [exact Hi|]. split.
  - destruct (actions props) as [|first rest] eqn:E; [congruence|].
    exists first, rest. split; [reflexivity|].
    rewrite ActionList_onKeyDown_onSelected by (left; reflexivity).
    rewrite newIndex_ArrowDown, Hi, E. simpl Z.eqb. cbv iota.
    rewrite array_get_head. reflexivity.
  - destruct (exists_last Hne) as [init [last E]].
    exists init, last. split; [exact E|].
    rewrite ActionList_onKeyDown_onSelected by (right; reflexivity).
    rewrite newIndex_ArrowUp, Hi, E. simpl Z.eqb. cbv iota.
    rewrite array_get_last. reflexivity.
Qed.

(** C10. The scroll helper returns without throwing for every argument;
    for [undefined] and for [null] it performs no effect at all, and for
    an element it issues exactly one scroll request, on that element. *)
Theorem scrollIntoViewIfNeeded_total (element : Nullable Element) :
  returns (scrollIntoViewIfNeeded element)
  /\ trace (scrollIntoViewIfNeeded element) =
     match element with
     | js_value e =>
         [if has_scrollIntoViewIfNeeded e
          then element_scrollIntoViewIfNeeded e false
          else element_scrollIntoView e]
     | _ => []
     end.
Proof.
  split.
  - exists tt. apply scrollIntoViewIfNeeded_returns.
  - destruct element as [| |e]; try reflexivity.
    rewrite scrollIntoViewIfNeeded_element. reflexivity.
Qed.

End NavigationClaims.

Section RowClaims.

Context {host : Host}.

Lemma strict_equal_opt_true (x : option ActionTraceEvent) (a : ActionTraceEvent) :
  strict_equal_opt x a = true <-> exists h, x = Some h /\ same_object h a.
Proof.
  destruct x as [h|]; simpl.
  - rewrite strict_equal_true. split.
    + intros H. exists h. split; [reflexivity|exact H].
    + intros [h' [E H]]. injection E as <-. exact H.
  - split; [discriminate|]. intros [h [E _]]. discriminate.
Qed.

(** C4. The pointer-leave listener of a row returns normally; it calls
    [onHighlighted(undefined)], once, if and only if the row's item is the
    very object currently highlighted, and otherwise it performs no effect
    at all. *)
Theorem pointer_leave_clears_only_own_highlight
    (props : ActionListProps) (action : ActionTraceEvent) :
  let leave := ActionListItem_onMouseLeave props action in
  onMouseLeave (jsx_listeners (ActionListItem props action)) = Some leave
  /\ returns leave
  /\ (onHighlighted_calls (trace leave) = [None] <-> is_highlighted props action)
  /\ (is_highlighted props action -> trace leave = [call_onHighlighted None])
  /\ (~ is_highlighted props action -> trace leave = []).
Proof.
  intros leave. unfold leave, ActionListItem_onMouseLeave, is_highlighted.
  split; [reflexivity|].
  pose proof (strict_equal_opt_true (highlightedAction props) action) as Hiff.
  destruct (strict_equal_opt (highlightedAction props) action).
  - assert (Hh : exists h, highlightedAction props = Some h /\ same_object h action)
      by (apply Hiff; reflexivity).
    split; [exists tt; reflexivity|]. split; [split; [intros _; exact Hh|reflexivity]|].
    split; [reflexivity|]. intros Hn. contradiction.
  - assert (Hn : ~ exists h, highlightedAction props = Some h /\ same_object h action)
      by (intros Hh; apply Hiff in Hh; discriminate).
    split; [exists tt; reflexivity|]. split; [split; [discriminate|intros Hh; contradiction]|].
    split; [intros Hh; contradiction|reflexivity].
Qed.

(** C5. In the DOM of a row, the [action-icons] element holds the error
    badge exactly when the error count is not zero and the warning badge
    exactly when the warning count is not zero, in that order, and each
    badge shows its count as text. *)
Theorem badges_follow_counts (props : ActionListProps) (action : ActionTraceEvent) :
  exists l,
    child_node (row_dom props action) action_icons_position =
    Some (dom_element (div "action-icons") l
            ((if errors (stats action) =? 0 then []
              else [dom_action_icon "codicon codicon-error" (errors (stats action))])
             ++ (if warnings (stats action) =? 0 then []
                 else [dom_action_icon "codicon codicon-warning" (warnings (stats action))]))).
Proof.
  eexists. unfold row_dom, ActionListItem. cbn [mount flat_map].
  unfold action_icons_position, child_node.
  match goal with
  | |- nth_error (?a ++ ?b ++ ?c) 2 = _ =>
      assert (Ha : exists t, a = [t]) by (eexists; reflexivity);
      assert (Hb : exists d, b = [d]) by (eexists; reflexivity);
      destruct Ha as [t ->]; destruct Hb as [d ->]
  end.
  cbn [app nth_error].
  unfold action_icons_content, and_bool, truthy_number. cbn [flat_map].
  destruct (errors (stats action) =? 0), (warnings (stats action) =? 0); reflexivity.
Qed.

End RowClaims.

(** ** Clicks and bubbling *)

Lemma quiet_text (s : string) : quiet (dom_text s).
Proof. intros [|i path]; reflexivity. Qed.

Lemma quiet_element (e : Element) (l : Listeners) (childNodes : list DomNode) :
  onClick l = None ->
  (forall c, In c childNodes -> quiet c) ->
  quiet (dom_element e l childNodes).
Proof.
  intros Hl Hc [|i path]; simpl; rewrite Hl; [reflexivity|].
  destruct (nth_error childNodes i) as [c|] eqn:E; [|reflexivity].
  apply nth_error_In in E. rewrite (Hc c E path). reflexivity.
Qed.

Lemma quiet_action_icon (codicon : string) (count : Z) :
  quiet (dom_action_icon codicon count).
Proof.
  apply quiet_element; [reflexivity|].
  intros c [<-|[<-|[]]].
  - apply quiet_element; [reflexivity|]. intros c [].
  - apply quiet_element; [reflexivity|]. intros c [<-|[]]. apply quiet_text.
Qed.

(** A click anywhere below an element whose descendants listen to nothing
    runs the click listener of that element only. *)
Lemma dispatch_click_quiet_children (e : Element) (l : Listeners)
    (childNodes : list DomNode) (path : list nat) :
  (forall c, In c childNodes -> quiet c) ->
  dispatch_click (dom_element e l childNodes) path = click_listener (dom_element e l childNodes).
Proof.
  intros Hc. destruct path as [|i path]; [reflexivity|]. simpl dispatch_click.
  destruct (nth_error childNodes i) as [c|] eqn:E; [|reflexivity].
  apply nth_error_In in E. rewrite (Hc c E path). apply bind_ret.
Qed.

Section DisplayClaims.

Context {host : Host}.

Lemma row_dom_unfold (props : ActionListProps) (action : ActionTraceEvent) :
  exists e l title_node rest,
    row_dom props action =
    dom_element e l
      (title_node
         :: dom_element (div "action-duration") no_listeners
              (mount (jsx_string (duration_text action)))
         :: dom_element (div "action-icons")
              {| onClick := Some action_icons_onClick; onMouseEnter := None;
                 onMouseLeave := None; onKeyDown := None |}
              (flat_map mount (action_icons_content action))
         :: rest)
    /\ onClick l = Some (ActionListItem_onClick action).
Proof.
  unfold row_dom, ActionListItem. cbn [mount flat_map]. rewrite !app_nil_r.
  do 4 eexists. split.
  - cbn [app]. reflexivity.
  - reflexivity.
Qed.

Lemma action_icons_quiet (action : ActionTraceEvent) (c : DomNode) :
  In c (flat_map mount (action_icons_content action)) -> quiet c.
Proof.
  unfold action_icons_content, and_bool. cbn [flat_map].
  destruct (truthy_number (errors (stats action)));
    destruct (truthy_number (warnings (stats action)));
    cbn [mount flat_map app In]; intros H;
    repeat (destruct H as [<-|H]; [apply quiet_action_icon|]); destruct H.
Qed.

(** C6. The text of the duration element of a row is the time formatter
    applied to [endTime - startTime] whenever the end timestamp is present
    and different from [0], and the label "Timed Out" whenever the end
    timestamp is absent or is [0]. *)
Theorem duration_formats_elapsed_or_timed_out
    (props : ActionListProps) (action : ActionTraceEvent) :
  let metadata := Trace.metadata action in
  child_node (row_dom props action) 1 =
    Some (dom_element (div "action-duration") no_listeners
            (mount (jsx_string (duration_text action))))
  /\ (forall e, Trace.endTime metadata = Some e -> e <> 0 ->
        duration_text action = msToString (e - Trace.startTime metadata))
  /\ (Trace.endTime metadata = None \/ Trace.endTime metadata = Some 0 ->
        duration_text action = "Timed Out"%string).
Proof.
  intros metadata. split; [|split].
  - destruct (row_dom_unfold props action) as (e & l & t & rest & -> & _). reflexivity.
  - intros e He Hnz. unfold duration_text. fold metadata. rewrite He.
    unfold truthy_number. apply Z.eqb_neq in Hnz. rewrite Hnz. reflexivity.
  - intros [He|He]; unfold duration_text; fold metadata; rewrite He; reflexivity.
Qed.

(** C7. For an item whose selector is a non-empty string, the locator
    annotation is the locator generator applied to the supplied SDK
    language and the selector, the language being the fallback
    ['javascript'] when none is supplied; for an item without a selector,
    or with the empty string as selector, there is no locator
    annotation. *)
Theorem locator_uses_language_and_selector (action : ActionTraceEvent) :
  let selector := Trace.selector (Trace.params (Trace.metadata action)) in
  (forall sel, selector = Some sel -> sel <> ""%string ->
     (forall lang, locator (Some lang) action = Some (asLocator lang sel))
     /\ locator None action = Some (asLocator javascript sel))
  /\ (selector = None \/ selector = Some ""%string ->
      forall language, locator language action = None).
Proof.
  intros selector. split.
  - intros sel Hsel Hne. unfold locator. fold selector. rewrite Hsel.
    unfold truthy_string. apply String.eqb_neq in Hne. rewrite Hne.
    split; [intros lang|]; reflexivity.
  - intros [H|H] language; unfold locator; fold selector; rewrite H; reflexivity.
Qed.

(** The locator annotation, when it is a non-empty string, is what the
    [action-selector] element of the row shows, as text and as title. *)
Lemma locator_displayed (props : ActionListProps) (action : ActionTraceEvent) (v : string) :
  locator (sdkLanguage props) action = Some v -> v <> ""%string ->
  nth_error (action_title_content props action) 1 =
  Some (jsx_element (div_titled "action-selector" v) no_listeners [jsx_string v]).
Proof.
  intros Hv Hne. unfold action_title_content. rewrite Hv. cbn [nth_error and_string].
  unfold truthy_string. apply String.eqb_neq in Hne. rewrite Hne. reflexivity.
Qed.

(** C8. A click on the icon area of a row, or on a badge inside it, calls
    [setSelectedTab("console")] and then, the click bubbling to the row,
    [onSelected] with the item of that row. *)
Theorem icon_click_switches_tab_then_selects
    (props : ActionListProps) (action : ActionTraceEvent) (path : list nat) :
  dispatch_click (row_dom props action) (action_icons_position :: path) =
  ([call_setSelectedTab "console"; call_onSelected (Some action)], inr tt).
Proof.
  destruct (row_dom_unfold props action) as (e & l & t & rest & -> & Hl).
  unfold action_icons_position. cbn [dispatch_click child_node nth_error].
  rewrite dispatch_click_quiet_children by apply action_icons_quiet.
  cbn [click_listener onClick]. rewrite Hl. reflexivity.
Qed.

End DisplayClaims.

(** * The component on concrete inputs *)

Module Scenarios.

Import Sample.

(** The browser of the sample host has no [scrollIntoViewIfNeeded]: the
    whole run of ArrowDown on [[A; B]] with [A] selected. *)
Example ArrowDown_from_A :
  ActionList_onKeyDown (props [A; B] (Some A))
    (actionListRef_mounted (props [A; B] (Some A))) "ArrowDown" =
  ([event_stopPropagation; event_preventDefault;
    element_scrollIntoView
      {| tagName := "div"; className := "action-entry"; title := None;
         key := Some "call@2"%string; tabIndex := None |};
    call_onSelected (Some B)], inr tt).
Proof. reflexivity. Qed.

Example B_timed_out : @duration_text host B = "Timed Out"%string.
Proof. reflexivity. Qed.

Example A_duration : @duration_text host A = "100ms"%string.
Proof. reflexivity. Qed.

Example python_locator :
  @locator host (Some "python"%string) C = Some (@asLocator host "python" "button.submit")%string.
Proof. reflexivity. Qed.

Example only_warning_badge :
  flat_map mount (@action_icons_content host C) =
  [dom_action_icon "codicon codicon-warning" 2]
  /\ number_toString 2 = "2"%string.
Proof. split; reflexivity. Qed.

Example other_keys_ignored :
  ActionList_onKeyDown (props [A; B] (Some A)) js_null "Enter" = ret tt.
Proof. reflexivity. Qed.

(** A click on the warning count of the second row of a rendered list. *)
Example click_on_warning_count :
  dispatch_click (list_dom (props [A; C] None)) [0; 1; 2; 0; 1]%nat =
  ([call_setSelectedTab "console"; call_onSelected (Some C)], inr tt).
Proof. reflexivity. Qed.

(** C2, on [[A; B]] with [A] selected. *)
Lemma ArrowDown_selects_next_witness :
  actions (props [A; B] (Some A)) <> []
  /\ onSelected_calls
       (trace (ActionList_onKeyDown (props [A; B] (Some A)) js_null "ArrowDown"))
     = [Some B].
Proof.
  assert (Hne : actions (props [A; B] (Some A)) <> []) by discriminate.
  split; [exact Hne|].
  destruct (ArrowDown_selects_next (props [A; B] (Some A)) js_null Hne)
    as (_ & _ & _ & item & Hitem & Hcalls & _).
  rewrite Hcalls. vm_compute in Hitem. rewrite <- Hitem. reflexivity.
Defined.

(** C3, on [[A]] with nothing selected. *)
Lemma ArrowUp_selects_previous_witness :
  actions (props [A] None) <> []
  /\ onSelected_calls (trace (ActionList_onKeyDown (props [A] None) js_null "ArrowUp"))
     = [Some A].
Proof.
  assert (Hne : actions (props [A] None) <> []) by discriminate.
  split; [exact Hne|].
  destruct (ArrowUp_selects_previous (props [A] None) js_null Hne)
    as (_ & _ & _ & _ & Hsingle).
  apply (Hsingle A); reflexivity.
Defined.

(** C9, on [[A; B]] with [C], which is not in the list, selected. *)
Lemma absent_selection_wraps_witness :
  actions (props [A; B] (Some C)) <> []
  /\ selection_absent (props [A; B] (Some C))
  /\ onSelected_calls
       (trace (ActionList_onKeyDown (props [A; B] (Some C)) js_null "ArrowDown"))
     = [Some A].
Proof.
  assert (Hne : actions (props [A; B] (Some C)) <> []) by discriminate.
  assert (Habs : selection_absent (props [A; B] (Some C))).
  { intros x [<-|[<-|[]]]; discriminate. }
  split; [exact Hne|]. split; [exact Habs|].
  destruct (absent_selection_wraps (props [A; B] (Some C)) js_null Hne Habs)
    as (_ & (first & rest & E & Hcalls) & _).
  injection E as <- <-. exact Hcalls.
Defined.

(** C4, leaving the row of [B] while [B] is highlighted. *)
Lemma pointer_leave_witness :
  trace (ActionListItem_onMouseLeave
           (@Build_ActionListProps host [A; B] None (Some B) None) B)
  = [call_onHighlighted None].
Proof.
  apply (pointer_leave_clears_only_own_highlight
           (@Build_ActionListProps host [A; B] None (Some B) None) B).
  exists B. split; reflexivity.
Defined.

(** C6, the duration of [A]. *)
Lemma duration_witness :
  @duration_text host A = @msToString host (100 - 0).
Proof.
  apply (proj1 (proj2 (duration_formats_elapsed_or_timed_out (props [A] None) A)) 100).
  - reflexivity.
  - discriminate.
Defined.

(** C7, the locator of [C] in Python. *)
Lemma locator_witness :
  @locator host (Some "python"%string) C = Some (@asLocator host "python" "button.submit")%string.
Proof.
  apply (proj1 (locator_uses_language_and_selector C) "button.submit"%string).
  - reflexivity.
  - discriminate.
Defined.

(** C6 as first stated fails: an action whose end timestamp is present
    and equal to [0] shows "Timed Out", not the formatted duration. *)
Lemma zero_end_time_shows_timed_out :
  ~ (forall (action : ActionTraceEvent) (e : Z),
       Trace.endTime (Trace.metadata action) = Some e ->
       @duration_text host action =
       @msToString host (e - Trace.startTime (Trace.metadata action))).
Proof.
  intros H. specialize (H instant 0 eq_refl). vm_compute in H. discriminate H.
Qed.

(** C7 as first stated fails: an item whose selector is the empty string
    gets no locator annotation. *)
Lemma empty_selector_has_no_locator :
  ~ (forall (language : option (@Language host)) (action : ActionTraceEvent) (sel : string),
       Trace.selector (Trace.params (Trace.metadata action)) = Some sel ->
       @locator host language action =
       Some (@asLocator host (match language with
                              | Some l => l
                              | None => @javascript host
                              end) sel)).
Proof.
  intros H. specialize (H (Some "python"%string) blank ""%string eq_refl).
  vm_compute in H. discriminate H.
Qed.

(** C8 as first stated fails: a click on the icon area of the row of [A]
    does reach [onSelected]. *)
Lemma icon_click_reaches_onSelected :
  ~ (forall (p : @ActionListProps host) (action : ActionTraceEvent),
       let t := trace (dispatch_click (row_dom p action) [action_icons_position]) in
       setSelectedTab_calls t = ["console"%string] /\ onSelected_calls t = []).
Proof.
  intros H. destruct (H (props [A] None) A) as [_ Hs].
  vm_compute in Hs. discriminate Hs.
Qed.

End Scenarios.


(** * Further properties of the component *)

(** ** Traces *)

Lemma onHighlighted_calls_app (t1 t2 : list Effect) :
  onHighlighted_calls (t1 ++ t2) = onHighlighted_calls t1 ++ onHighlighted_calls t2.
Proof.
  induction t1 as [|e t1 IH]; simpl; [reflexivity|].
  destruct e; simpl; rewrite IH; reflexivity.
Qed.

Lemma setSelectedTab_calls_app (t1 t2 : list Effect) :
  setSelectedTab_calls (t1 ++ t2) = setSelectedTab_calls t1 ++ setSelectedTab_calls t2.
Proof.
  induction t1 as [|e t1 IH]; simpl; [reflexivity|].
  destruct e; simpl; rewrite IH; reflexivity.
Qed.

Lemma scroll_calls_app (t1 t2 : list Effect) :
  scroll_calls (t1 ++ t2) = scroll_calls t1 ++ scroll_calls t2.
Proof.
  induction t1 as [|e t1 IH]; simpl; [reflexivity|].
  destruct e; simpl; rewrite IH; reflexivity.
Qed.

(** ** Arrays of distinct objects *)

Lemma array_get_Some (A : Type) (arr : list A) (i : Z) (x : A) :
  array_get arr i = Some x ->
  0 <= i < array_length arr /\ nth_error arr (Z.to_nat i) = Some x.
Proof.
  unfold array_get.
  destruct (Z.ltb_spec i 0) as [Hneg|Hpos]; [discriminate|].
  destruct (Z.leb_spec (array_length arr) i) as [Hbig|Hsmall]; [discriminate|].
  simpl. intros H. split; [lia|exact H].
Qed.

Lemma distinct_objects_position (arr : list ActionTraceEvent) (i j : Z)
    (x y : ActionTraceEvent) :
  distinct_objects arr ->
  array_get arr i = Some x -> array_get arr j = Some y -> same_object x y -> i = j.
Proof.
  unfold distinct_objects, same_object. intros Hnd Hx Hy Hs.
  apply array_get_Some in Hx. destruct Hx as [Hi Hx].
  apply array_get_Some in Hy. destruct Hy as [Hj Hy].
  assert (E : Z.to_nat i = Z.to_nat j).
  { apply (proj1 (NoDup_nth_error (map Trace.ref arr)) Hnd).
    - rewrite length_map. unfold array_length in Hi. lia.
    - rewrite (map_nth_error Trace.ref _ _ Hx), (map_nth_error Trace.ref _ _ Hy), Hs.
      reflexivity. }
  lia.
Qed.

(** In an array of distinct objects, [indexOf] finds an object where it
    is. *)
Lemma indexOf_distinct (arr : list ActionTraceEvent) (i : Z) (x s : ActionTraceEvent) :
  distinct_objects arr ->
  array_get arr i = Some x -> same_object x s -> indexOf arr s = i.
Proof.
  intros Hnd Hx Hs. unfold indexOf.
  destruct (indexOf_from_spec arr s 0) as [[_ Hall]|[_ [y [Hy [Hys _]]]]]; [lia| |].
  - exfalso. apply (Hall x); [apply (array_get_In _ _ _ _ Hx)|exact Hs].
  - rewrite Z.sub_0_r in Hy.
    apply (distinct_objects_position arr _ _ y x Hnd Hy Hx).
    unfold same_object in *. congruence.
Qed.

(** An object found at the head of an array has index [0], distinct
    objects or not. *)
Lemma indexOf_head (x s : ActionTraceEvent) (rest : list ActionTraceEvent) :
  same_object x s -> indexOf (x :: rest) s = 0.
Proof.
  intros Hs. unfold indexOf. simpl.
  apply strict_equal_true in Hs. rewrite Hs. reflexivity.
Qed.

Lemma array_get_nil (A : Type) (i : Z) : array_get (@nil A) i = None.
Proof.
  unfold array_get, array_length. simpl.
  destruct (Z.ltb_spec i 0) as [H|H]; [reflexivity|].
  replace (0 <=? i) with true by (symmetry; apply Z.leb_le; exact H). reflexivity.
Qed.

Lemma array_length_map (A B : Type) (f : A -> B) (arr : list A) :
  array_length (map f arr) = array_length arr.
Proof. unfold array_length. rewrite length_map. reflexivity. Qed.

Lemma array_get_map (A B : Type) (f : A -> B) (arr : list A) (i : Z) (x : A) :
  array_get arr i = Some x -> array_get (map f arr) i = Some (f x).
Proof.
  unfold array_get. rewrite array_length_map.
  destruct ((i <? 0) || (array_length arr <=? i)); [discriminate|].
  apply map_nth_error.
Qed.

(** Below [2 ^ 32], [item] and indexing agree. *)
Lemma HTMLCollection_item_in_range (c : list Element) (i : Z) (e : Element) :
  array_length c <= 2 ^ 32 ->
  array_get c i = Some e ->
  HTMLCollection_item c i = js_value e.
Proof.
  intros Hlen He. apply array_get_Some in He. destruct He as [Hi He].
  unfold HTMLCollection_item. rewrite Z.mod_small by lia.
  replace (array_length c <=? i) with false by (symmetry; apply Z.leb_gt; lia).
  rewrite He. reflexivity.
Qed.

Section MoreNavigation.

Context {host : Host}.

Lemma arrow_key_dec (key : string) :
  {key = "ArrowDown"%string \/ key = "ArrowUp"%string}
  + {key <> "ArrowDown"%string /\ key <> "ArrowUp"%string}.
Proof.
  destruct (string_dec key "ArrowDown") as [E|Nd]; [left; left; exact E|].
  destruct (string_dec key "ArrowUp") as [E|Nu]; [left; right; exact E|].
  right. split; assumption.
Qed.

Lemma scrollIntoViewIfNeeded_trace (element : Nullable Element) :
  trace (scrollIntoViewIfNeeded element) =
  match element with
  | js_value e => [scroll_request e]
  | _ => []
  end.
Proof.
  destruct element as [| |e]; try reflexivity.
  rewrite scrollIntoViewIfNeeded_element. reflexivity.
Qed.

Lemma scroll_calls_request (e : Element) : scroll_calls [scroll_request e] = [scroll_request e].
Proof. unfold scroll_request. destruct (has_scrollIntoViewIfNeeded e); reflexivity. Qed.

Lemma scroll_request_not_event (e : Element) :
  scroll_request e <> event_stopPropagation /\ scroll_request e <> event_preventDefault.
Proof. unfold scroll_request. destruct (has_scrollIntoViewIfNeeded e); split; discriminate. Qed.

Lemma scroll_request_no_callback (e : Element) :
  onHighlighted_calls [scroll_request e] = []
  /\ setSelectedTab_calls [scroll_request e] = []
  /\ onSelected_calls [scroll_request e] = [].
Proof. unfold scroll_request. destruct (has_scrollIntoViewIfNeeded e); repeat split. Qed.

(** The trace of the listener on an arrow key, with the scroll spelled
    out. *)
Lemma ActionList_onKeyDown_trace (props : ActionListProps)
    (current : Nullable HTMLDivElement) (key : string) :
  key = "ArrowDown"%string \/ key = "ArrowUp"%string ->
  trace (ActionList_onKeyDown props current key) =
  event_stopPropagation :: event_preventDefault
    :: match ref_child current (newIndex props key) with
       | js_value e => [scroll_request e]
       | _ => []
       end
    ++ [call_onSelected (array_get (actions props) (newIndex props key))].
Proof.
  intros Hkey. rewrite (ActionList_onKeyDown_arrow props current key Hkey).
  unfold trace at 1. cbn [fst app]. rewrite scrollIntoViewIfNeeded_trace. reflexivity.
Qed.

Lemma index_of_member (props : ActionListProps) (i : Z) (x s : ActionTraceEvent) :
  distinct_objects (actions props) ->
  selectedAction props = Some s ->
  array_get (actions props) i = Some x -> same_object x s ->
  index props = i.
Proof.
  intros Hnd Hsel Hx Hs. unfold index. rewrite Hsel.
  apply (indexOf_distinct _ _ x s Hnd Hx Hs).
Qed.

(** X1. The listener consumes the key event exactly when the key is
    ArrowDown or ArrowUp: then [stopPropagation] and [preventDefault] are
    called once each, before anything else; for every other key the
    listener does nothing at all. *)
Theorem arrow_keys_alone_are_consumed (props : ActionListProps)
    (current : Nullable HTMLDivElement) (key : string) :
  let h := ActionList_onKeyDown props current key in
  let arrow := key = "ArrowDown"%string \/ key = "ArrowUp"%string in
  (In event_stopPropagation (trace h) <-> arrow)
  /\ (In event_preventDefault (trace h) <-> arrow)
  /\ (arrow -> exists rest,
        trace h = event_stopPropagation :: event_preventDefault :: rest
        /\ ~ In event_stopPropagation rest /\ ~ In event_preventDefault rest)
  /\ (~ arrow -> h = ret tt).
Proof.
  intros h arrow. unfold h, arrow.
  destruct (arrow_key_dec key) as [Hkey|[Hd Hu]].
  - rewrite (ActionList_onKeyDown_trace props current key Hkey).
    split; [split; [intros _; exact Hkey|intros _; left; reflexivity]|].
    split; [split; [intros _; exact Hkey|intros _; right; left; reflexivity]|].
    split; [|intros Hn; contradiction].
    intros _. eexists. split; [reflexivity|].
    destruct (ref_child current (newIndex props key)) as [| |e]; cbn [app In].
    + split; intros [H|[]]; discriminate H.
    + split; intros [H|[]]; discriminate H.
    + destruct (scroll_request_not_event e) as [Hs Hp].
      split; intros [H|[H|[]]]; try discriminate H; [apply Hs|apply Hp]; exact H.
  - rewrite (ActionList_onKeyDown_other props current key Hd Hu).
    split; [split; [intros []|intros [H|H]; contradiction]|].
    split; [split; [intros []|intros [H|H]; contradiction]|].
    split; [intros [H|H]; contradiction|reflexivity].
Qed.

(** X2. Whatever the key, the list, the selection and the state of the
    ref, the key-down listener never calls [onHighlighted] or
    [setSelectedTab], calls [onSelected] at most once and issues at most one
    scroll request. *)
Theorem keydown_touches_selection_only (props : ActionListProps)
    (current : Nullable HTMLDivElement) (key : string) :
  let t := trace (ActionList_onKeyDown props current key) in
  onHighlighted_calls t = []
  /\ setSelectedTab_calls t = []
  /\ (List.length (onSelected_calls t) <= 1)%nat
  /\ (List.length (scroll_calls t) <= 1)%nat.
Proof.
  intros t. unfold t.
  destruct (arrow_key_dec key) as [Hkey|[Hd Hu]].
  - rewrite (ActionList_onKeyDown_trace props current key Hkey).
    destruct (ref_child current (newIndex props key)) as [| |e]; cbn [app];
      try (repeat split; simpl; lia).
    destruct (scroll_request_no_callback e) as (Hh & Ht & Hs).
    change (event_stopPropagation :: event_preventDefault :: scroll_request e
              :: [call_onSelected (array_get (actions props) (newIndex props key))])
      with ([event_stopPropagation; event_preventDefault] ++ [scroll_request e]
              ++ [call_onSelected (array_get (actions props) (newIndex props key))]).
    rewrite !onHighlighted_calls_app, !setSelectedTab_calls_app, !onSelected_calls_app,
      !scroll_calls_app, Hh, Ht, Hs, scroll_calls_request.
    repeat split; simpl; lia.
  - rewrite (ActionList_onKeyDown_other props current key Hd Hu).
    repeat split; simpl; lia.
Qed.

(** X3. On an arrow key the listener calls [onSelected] exactly once; the
    argument is [undefined] if and only if the list is empty, and otherwise
    it is an element of the list. *)
Theorem onSelected_undefined_iff_empty (props : ActionListProps)
    (current : Nullable HTMLDivElement) (key : string)
    (Hkey : key = "ArrowDown"%string \/ key = "ArrowUp"%string) :
  let calls := onSelected_calls (trace (ActionList_onKeyDown props current key)) in
  (exists v, calls = [v])
  /\ (calls = [None] <-> actions props = [])
  /\ (forall a, calls = [Some a] -> In a (actions props)).
Proof.
  intros calls. unfold calls.
  rewrite (ActionList_onKeyDown_onSelected props current key Hkey).
  split; [eexists; reflexivity|]. split; [split|].
  - intros H. destruct (actions props) as [|x rest] eqn:E; [reflexivity|exfalso].
    assert (Hne : actions props <> []) by (rewrite E; discriminate).
    pose proof (newIndex_in_range props key Hne Hkey) as Hr.
    destruct (array_get_in_range _ _ _ Hr) as [item Hitem].
    rewrite E in Hitem. rewrite Hitem in H. discriminate H.
  - intros E. rewrite E, array_get_nil. reflexivity.
  - intros a H. injection H as H. apply (array_get_In _ _ _ _ H).
Qed.

End MoreNavigation.

Section RenderedList.

Context {host : Host}.

Lemma mount_ActionListItem (props : ActionListProps) (action : ActionTraceEvent) :
  mount (ActionListItem props action) = [row_dom props action].
Proof. reflexivity. Qed.

Lemma row_dom_element (props : ActionListProps) (action : ActionTraceEvent) :
  exists l childNodes,
    row_dom props action = dom_element (row_element props action) l childNodes.
Proof. do 2 eexists. reflexivity. Qed.

Lemma mount_rows (props : ActionListProps) (items : list ActionTraceEvent) :
  flat_map mount (map (ActionListItem props) items) = map (row_dom props) items.
Proof.
  induction items as [|a items IH]; [reflexivity|].
  cbn [map flat_map]. rewrite IH, mount_ActionListItem. reflexivity.
Qed.

Lemma element_children_rows (props : ActionListProps) (items : list ActionTraceEvent) :
  element_children (map (row_dom props) items) = map (row_element props) items.
Proof.
  induction items as [|a items IH]; [reflexivity|].
  cbn [map]. destruct (row_dom_element props a) as (l & cs & ->).
  cbn [element_children]. rewrite IH. reflexivity.
Qed.

Lemma action_list_content_mounted (props : ActionListProps) :
  flat_map mount (action_list_content props) =
  match actions props with
  | [] => [dom_element (div "no-actions-entry") no_listeners [dom_text "No actions recorded"]]
  | _ :: _ => map (row_dom props) (actions props)
  end.
Proof.
  unfold action_list_content. cbn [flat_map]. rewrite mount_rows.
  destruct (actions props) as [|a rest]; [reflexivity|].
  rewrite array_length_cons. pose proof (array_length_nonneg _ rest).
  replace (array_length rest + 1 =? 0) with false by (symmetry; apply Z.eqb_neq; lia).
  reflexivity.
Qed.

(** X4. The list renders, inside its content element, the single "No
    actions recorded" placeholder when there is no action, and otherwise
    exactly one row per action, in the order of the sequence, with no
    placeholder; so [children] has [max 1 length] elements. *)
Theorem list_renders_placeholder_or_rows (props : ActionListProps) :
  let rendered := element_children (flat_map mount (action_list_content props)) in
  rendered = match actions props with
             | [] => [div "no-actions-entry"]
             | _ :: _ => map (row_element props) (actions props)
             end
  /\ array_length rendered = Z.max 1 (array_length (actions props))
  /\ child_node (list_dom props) 0 =
     Some (dom_element
             {| tagName := "div"; className := "action-list-content"; title := None;
                key := None; tabIndex := Some 0 |}
             {| onClick := None; onMouseEnter := None; onMouseLeave := None;
                onKeyDown := Some (ActionList_onKeyDown props (actionListRef_mounted props)) |}
             (flat_map mount (action_list_content props))).
Proof.
  intros rendered. unfold rendered.
  split; [|split]; [| |reflexivity]; rewrite action_list_content_mounted;
    destruct (actions props) as [|a rest] eqn:E; try reflexivity;
    rewrite element_children_rows; [reflexivity|].
  rewrite array_length_map, array_length_cons.
  pose proof (array_length_nonneg _ rest). lia.
Qed.

(** X5. With the list rendered and not empty, an arrow key scrolls exactly
    one element into view: the row of the very item it passes to
    [onSelected]. (The length bound is the one every JavaScript array
    meets.) *)
Theorem keyboard_scrolls_selected_row (props : ActionListProps) (key : string)
    (Hne : actions props <> [])
    (Hlen : array_length (actions props) <= 2 ^ 32)
    (Hkey : key = "ArrowDown"%string \/ key = "ArrowUp"%string) :
  let t := trace (ActionList_onKeyDown props (actionListRef_mounted props) key) in
  exists item,
    In item (actions props)
    /\ onSelected_calls t = [Some item]
    /\ scroll_calls t = [scroll_request (row_element props item)].
Proof.
  intros t. unfold t.
  pose proof (newIndex_in_range props key Hne Hkey) as Hr.
  destruct (array_get_in_range _ _ _ Hr) as [item Hitem].
  exists item. split; [apply (array_get_In _ _ _ _ Hitem)|].
  split; [rewrite ActionList_onKeyDown_onSelected by exact Hkey; rewrite Hitem; reflexivity|].
  rewrite (ActionList_onKeyDown_trace props _ key Hkey).
  assert (Hchild : ref_child (actionListRef_mounted props) (newIndex props key)
                   = js_value (row_element props item)).
  { unfold actionListRef_mounted, ref_child. cbn [children].
    rewrite action_list_content_mounted.
    destruct (actions props) as [|a rest] eqn:E; [congruence|].
    rewrite element_children_rows.
    apply HTMLCollection_item_in_range.
    - rewrite array_length_map. exact Hlen.
    - apply array_get_map. exact Hitem. }
  rewrite Hchild.
  change (event_stopPropagation :: event_preventDefault
            :: [scroll_request (row_element props item)]
            ++ [call_onSelected (array_get (actions props) (newIndex props key))])
    with ([event_stopPropagation; event_preventDefault]
            ++ [scroll_request (row_element props item)]
            ++ [call_onSelected (array_get (actions props) (newIndex props key))]).
  rewrite !scroll_calls_app, scroll_calls_request. reflexivity.
Qed.

End RenderedList.

Section NavigationSteps.

Context {host : Host}.

(** X6. In a list of distinct objects whose last item is the selected
    object, ArrowDown selects that last item again: the selection does not
    move past the end. *)
Theorem ArrowDown_on_last_stays (props : ActionListProps)
    (current : Nullable HTMLDivElement)
    (init : list ActionTraceEvent) (last s : ActionTraceEvent)
    (Hnd : distinct_objects (actions props))
    (Hlast : actions props = init ++ [last])
    (Hsel : selectedAction props = Some s)
    (Hs : same_object last s) :
  onSelected_calls (trace (ActionList_onKeyDown props current "ArrowDown")) = [Some last].
Proof.
  assert (Hget : array_get (actions props) (array_length (actions props) - 1) = Some last)
    by (rewrite Hlast; apply array_get_last).
  pose proof (index_of_member props _ last s Hnd Hsel Hget Hs) as Hi.
  rewrite ActionList_onKeyDown_onSelected by (left; reflexivity).
  rewrite newIndex_ArrowDown, Hi.
  apply array_get_Some in Hget. destruct Hget as [Hr Hnth].
  destruct (Z.eqb_spec (array_length (actions props) - 1) (-1)) as [E|_]; [lia|].
  rewrite Z.min_r by lia.
  rewrite Hlast. rewrite array_get_last. reflexivity.
Qed.

(** X7. When the first item of the list is the selected object, ArrowUp
    selects that first item again: the selection does not move before the
    start. *)
Theorem ArrowUp_on_first_stays (props : ActionListProps)
    (current : Nullable HTMLDivElement)
    (first s : ActionTraceEvent) (rest : list ActionTraceEvent)
    (Hfirst : actions props = first :: rest)
    (Hsel : selectedAction props = Some s)
    (Hs : same_object first s) :
  onSelected_calls (trace (ActionList_onKeyDown props current "ArrowUp")) = [Some first].
Proof.
  rewrite ActionList_onKeyDown_onSelected by (right; reflexivity).
  rewrite newIndex_ArrowUp. unfold index. rewrite Hsel, Hfirst.
  rewrite (indexOf_head first s rest Hs).
  change (if 0 =? -1 then array_length (first :: rest) - 1 else Z.max (0 - 1) 0) with 0.
  rewrite array_get_head. reflexivity.
Qed.

(** X8. In a list of distinct objects, ArrowDown from a selected item that
    is not the last selects the next item, and ArrowUp from that next item,
    once the host has made it the selection, selects the original item
    again. *)
Theorem ArrowDown_then_ArrowUp_returns (props : ActionListProps)
    (current current' : Nullable HTMLDivElement)
    (i : Z) (a b s : ActionTraceEvent)
    (Hnd : distinct_objects (actions props))
    (Hsel : selectedAction props = Some s)
    (Ha : array_get (actions props) i = Some a)
    (Hs : same_object a s)
    (Hb : array_get (actions props) (i + 1) = Some b) :
  onSelected_calls (trace (ActionList_onKeyDown props current "ArrowDown")) = [Some b]
  /\ onSelected_calls
       (trace (ActionList_onKeyDown (with_selected props b) current' "ArrowUp"))
     = [Some a].
Proof.
  pose proof (index_of_member props i a s Hnd Hsel Ha Hs) as Hi.
  pose proof (array_get_Some _ _ _ _ Ha) as [Hra _].
  pose proof (array_get_Some _ _ _ _ Hb) as [Hrb _].
  split.
  - rewrite ActionList_onKeyDown_onSelected by (left; reflexivity).
    rewrite newIndex_ArrowDown, Hi.
    destruct (Z.eqb_spec i (-1)) as [E|_]; [lia|].
    rewrite Z.min_l by lia. rewrite Hb. reflexivity.
  - assert (Hi' : index (with_selected props b) = i + 1).
    { apply (index_of_member (with_selected props b) (i + 1) b b);
        [exact Hnd|reflexivity|exact Hb|reflexivity]. }
    rewrite ActionList_onKeyDown_onSelected by (right; reflexivity).
    rewrite newIndex_ArrowUp, Hi'.
    destruct (Z.eqb_spec (i + 1) (-1)) as [E|_]; [lia|].
    replace (Z.max (i + 1 - 1) 0) with i by lia.
    change (actions (with_selected props b)) with (actions props).
    rewrite Ha. reflexivity.
Qed.

(** X9. In a list of distinct objects, ArrowUp from a selected item that is
    not the first selects the previous item, and ArrowDown from that
    previous item, once the host has made it the selection, selects the
    original item again. *)
Theorem ArrowUp_then_ArrowDown_returns (props : ActionListProps)
    (current current' : Nullable HTMLDivElement)
    (i : Z) (a b s : ActionTraceEvent)
    (Hnd : distinct_objects (actions props))
    (Hsel : selectedAction props = Some s)
    (Ha : array_get (actions props) i = Some a)
    (Hs : same_object a s)
    (Hb : array_get (actions props) (i - 1) = Some b) :
  onSelected_calls (trace (ActionList_onKeyDown props current "ArrowUp")) = [Some b]
  /\ onSelected_calls
       (trace (ActionList_onKeyDown (with_selected props b) current' "ArrowDown"))
     = [Some a].
Proof.
  pose proof (index_of_member props i a s Hnd Hsel Ha Hs) as Hi.
  pose proof (array_get_Some _ _ _ _ Ha) as [Hra _].
  pose proof (array_get_Some _ _ _ _ Hb) as [Hrb _].
  split.
  - rewrite ActionList_onKeyDown_onSelected by (right; reflexivity).
    rewrite newIndex_ArrowUp, Hi.
    destruct (Z.eqb_spec i (-1)) as [E|_]; [lia|].
    rewrite Z.max_l by lia. rewrite Hb. reflexivity.
  - assert (Hi' : index (with_selected props b) = i - 1).
    { apply (index_of_member (with_selected props b) (i - 1) b b);
        [exact Hnd|reflexivity|exact Hb|reflexivity]. }
    rewrite ActionList_onKeyDown_onSelected by (left; reflexivity).
    rewrite newIndex_ArrowDown, Hi'.
    destruct (Z.eqb_spec (i - 1) (-1)) as [E|_]; [lia|].
    change (actions (with_selected props b)) with (actions props).
    replace (Z.min (i - 1 + 1) (array_length (actions props) - 1)) with i by lia.
    rewrite Ha. reflexivity.
Qed.

End NavigationSteps.

(** ** Rows *)

Lemma bind_ret_r (m : Js unit) : (m ;; ret tt) = m.
Proof.
  destruct m as [t [e|[]]]; unfold bind, ret; [reflexivity|].
  rewrite app_nil_r. reflexivity.
Qed.



Section Rows.

Context {host : Host}.

Lemma row_dom_structure (props : ActionListProps) (action : ActionTraceEvent) :
  row_dom props action =
  dom_element (row_element props action)
    {| onClick := Some (ActionListItem_onClick action);
       onMouseEnter := Some (ActionListItem_onMouseEnter action);
       onMouseLeave := Some (ActionListItem_onMouseLeave props action);
       onKeyDown := None |}
    (dom_element (div "action-title") no_listeners
       (flat_map mount (action_title_content props action))
     :: dom_element (div "action-duration") no_listeners
          (mount (jsx_string (duration_text action)))
     :: dom_element (div "action-icons")
          {| onClick := Some action_icons_onClick; onMouseEnter := None;
             onMouseLeave := None; onKeyDown := None |}
          (flat_map mount (action_icons_content action))
     :: mount (and_string (error_message action)
                 (jsx_element
                    (div_titled "codicon codicon-issues"
                       (match error_message action with Some v => v | None => ""%string end))
                    no_listeners []))).
Proof.
  unfold row_dom, row_element, ActionListItem. cbn [mount flat_map].
  rewrite !app_nil_r. reflexivity.
Qed.





(** X11. In the rendered list, a click inside the row at position [k] is
    handled exactly as a click in that row alone: the two containers of the
    list add no effect of their own. *)
Theorem click_in_list_reaches_its_row (props : ActionListProps) (k : nat)
    (a : ActionTraceEvent) (path : list nat)
    (Hk : nth_error (actions props) k = Some a) :
  dispatch_click (list_dom props) (0%nat :: k :: path) =
  dispatch_click (row_dom props a) path.
Proof.
  unfold list_dom, ActionList. cbn [mount flat_map app].
  cbn [dispatch_click child_node nth_error].
  rewrite action_list_content_mounted.
  destruct (actions props) as [|x rest] eqn:E; [destruct k; discriminate Hk|].
  rewrite (map_nth_error (row_dom props) _ _ Hk).
  cbn [click_listener onClick no_listeners]. rewrite !bind_ret_r. reflexivity.
Qed.

(** X12. When there is no action, nothing in the rendered list reacts to
    a click: neither the placeholder nor the containers call any
    callback. *)
Theorem empty_list_ignores_clicks (props : ActionListProps)
    (Hempty : actions props = []) :
  quiet (list_dom props).
Proof.
  unfold list_dom, ActionList. cbn [mount flat_map app].
  apply quiet_element; [reflexivity|]. intros c [<-|[]].
  apply quiet_element; [reflexivity|].
  rewrite action_list_content_mounted, Hempty. intros c [<-|[]].
  apply quiet_element; [reflexivity|]. intros c [<-|[]]. apply quiet_text.
Qed.

End Rows.

Section RowDisplay.

Context {host : Host}.

(** X13. The title of a row shows the API name, then the locator
    annotation when it is a non-empty string, then the URL when the method
    is ["goto"] and the URL is a non-empty string; each annotation carries
    its text as title too, and an absent or empty value leaves no element
    behind. *)
Theorem title_shows_locator_and_url (props : ActionListProps) (action : ActionTraceEvent) :
  let metadata := Trace.metadata action in
  child_node (row_dom props action) 0 =
  Some (dom_element (div "action-title") no_listeners
          (dom_element (span "") no_listeners (mount (jsx_string (Trace.apiName metadata)))
           :: match locator (sdkLanguage props) action with
              | Some v =>
                  if String.eqb v "" then []
                  else [dom_element (div_titled "action-selector" v) no_listeners [dom_text v]]
              | None => []
              end
           ++ (if String.eqb (Trace.method metadata) "goto"
               then match Trace.url (Trace.params metadata) with
                    | Some u =>
                        if String.eqb u "" then []
                        else [dom_element (div_titled "action-url" u) no_listeners [dom_text u]]
                    | None => []
                    end
               else []))).
Proof.
  intros metadata. rewrite row_dom_structure. cbn [child_node nth_error].
  unfold action_title_content. fold metadata.
  cbn [flat_map]. rewrite app_nil_r.
  change (mount (jsx_element (span "") no_listeners [jsx_string (Trace.apiName metadata)]))
    with [dom_element (span "") no_listeners
            (mount (jsx_string (Trace.apiName metadata)) ++ [])].
  rewrite app_nil_r. cbn [app].
  do 3 f_equal. f_equal.
  - destruct (locator (sdkLanguage props) action) as [v|]; [|reflexivity].
    unfold and_string, truthy_string. destruct (String.eqb v "") eqn:E; cbn [negb mount].
    + unfold truthy_string. rewrite E. reflexivity.
    + cbn [flat_map mount]. unfold truthy_string. rewrite E. reflexivity.
  - unfold and_bool. destruct (String.eqb (Trace.method metadata) "goto"); [|reflexivity].
    destruct (Trace.url (Trace.params metadata)) as [u|]; [|reflexivity].
    unfold and_string, truthy_string. destruct (String.eqb u "") eqn:E; cbn [negb mount].
    + unfold truthy_string. rewrite E. reflexivity.
    + cbn [flat_map mount]. unfold truthy_string. rewrite E. reflexivity.
Qed.

(** X14. A row has its three fixed children (title, duration, icon area)
    and, after them, the error indicator exactly when
    [metadata.error?.error?.message] is a non-empty string; the indicator
    carries the message as its title. *)
Theorem error_indicator_follows_message (props : ActionListProps)
    (action : ActionTraceEvent) :
  skipn 3 (dom_childNodes (row_dom props action)) =
  match error_message action with
  | Some m =>
      if String.eqb m "" then []
      else [dom_element (div_titled "codicon codicon-issues" m) no_listeners []]
  | None => []
  end
  /\ (3 <= List.length (dom_childNodes (row_dom props action)) <= 4)%nat
  /\ (Trace.error (Trace.metadata action) = None -> error_message action = None)
  /\ (forall e, Trace.error (Trace.metadata action) = Some e ->
        Trace.error_value e = None -> error_message action = None).
Proof.
  rewrite row_dom_structure. cbn [dom_childNodes skipn List.length].
  assert (Hm : mount (and_string (error_message action)
                        (jsx_element
                           (div_titled "codicon codicon-issues"
                              (match error_message action with
                               | Some v => v
                               | None => ""%string
                               end))
                           no_listeners [])) =
               match error_message action with
               | Some m =>
                   if String.eqb m "" then []
                   else [dom_element (div_titled "codicon codicon-issues" m) no_listeners []]
               | None => []
               end).
  { destruct (error_message action) as [m|]; [|reflexivity].
    unfold and_string, truthy_string. destruct (String.eqb m "") eqn:E; cbn [negb mount].
    - unfold truthy_string. rewrite E. reflexivity.
    - reflexivity. }
  rewrite Hm. split; [reflexivity|]. split.
  - destruct (error_message action) as [m|]; [destruct (String.eqb m "")|]; simpl; lia.
  - unfold error_message. split.
    + intros ->. reflexivity.
    + intros e -> ->. reflexivity.
Qed.

(** X15. The effect of a row never throws; it scrolls the row into view,
    with one request, exactly when the row's element exists and the row's
    item is the selected object; so no row scrolls when nothing is
    selected, and two rows whose items are different objects never both
    scroll. *)
Theorem row_effect_scrolls_selected_row_only (props : ActionListProps) :
  (forall action current, returns (ActionListItem_effect props action current))
  /\ (forall action e,
        trace (ActionListItem_effect props action (js_value e)) =
        if strict_equal_opt (selectedAction props) action then [scroll_request e] else [])
  /\ (forall action,
        ActionListItem_effect props action js_null = ret tt
        /\ ActionListItem_effect props action js_undefined = ret tt)
  /\ (selectedAction props = None ->
      forall action current, ActionListItem_effect props action current = ret tt)
  /\ (forall x y cx cy, ~ same_object x y ->
        ActionListItem_effect props x cx = ret tt
        \/ ActionListItem_effect props y cy = ret tt).
Proof.
  split; [|split; [|split; [|split]]].
  - intros action current. exists tt. unfold ActionListItem_effect.
    destruct (truthy_ref current && strict_equal_opt (selectedAction props) action);
      [apply scrollIntoViewIfNeeded_returns|reflexivity].
  - intros action e. unfold ActionListItem_effect. cbn [truthy_ref andb].
    destruct (strict_equal_opt (selectedAction props) action); [|reflexivity].
    apply (scrollIntoViewIfNeeded_trace (js_value e)).
  - intros action. split; reflexivity.
  - intros Hsel action current. unfold ActionListItem_effect. rewrite Hsel. cbn.
    rewrite andb_false_r. reflexivity.
  - intros x y cx cy Hxy. unfold ActionListItem_effect.
    destruct (strict_equal_opt (selectedAction props) x) eqn:Ex;
      [|left; rewrite andb_false_r; reflexivity].
    destruct (strict_equal_opt (selectedAction props) y) eqn:Ey;
      [|right; rewrite andb_false_r; reflexivity].
    exfalso. apply strict_equal_opt_true in Ex. apply strict_equal_opt_true in Ey.
    destruct Ex as [s [Hs Hsx]]. destruct Ey as [s' [Hs' Hsy]].
    rewrite Hs in Hs'. injection Hs' as <-.
    apply Hxy. unfold same_object in *. congruence.
Qed.

Lemma row_element_className (props : ActionListProps) (action : ActionTraceEvent) :
  className (row_element props action) =
  ("action-entry"
     ++ (if strict_equal_opt (selectedAction props) action then " selected" else "")
     ++ (if strict_equal_opt (highlightedAction props) action then " highlighted" else ""))%string.
Proof. reflexivity. Qed.

(** X16. The class of a row carries the [selected] marker if and only if
    the row's item is the selected object, and the [highlighted] marker if
    and only if it is the highlighted object; the key of the row is the id
    of its item. *)
Theorem row_markers_follow_state (props : ActionListProps) (action : ActionTraceEvent) :
  (marked_selected (row_element props action)
   <-> exists s, selectedAction props = Some s /\ same_object s action)
  /\ (marked_highlighted (row_element props action) <-> is_highlighted props action)
  /\ key (row_element props action) = Some (Trace.id (Trace.metadata action)).
Proof.
  unfold marked_selected, marked_highlighted, is_highlighted.
  rewrite row_element_className.
  rewrite <- !strict_equal_opt_true.
  destruct (strict_equal_opt (selectedAction props) action),
           (strict_equal_opt (highlightedAction props) action); cbn;
    (split; [|split; [|reflexivity]]); split;
    try (intros [H|H]; discriminate H); try discriminate; try reflexivity;
    intros _; auto.
Qed.

(** X17. In a list of distinct objects at most one row is marked selected:
    two positions whose rows both carry the marker are the same
    position. *)
Theorem at_most_one_row_marked_selected (props : ActionListProps)
    (i j : Z) (x y : ActionTraceEvent)
    (Hnd : distinct_objects (actions props))
    (Hx : array_get (actions props) i = Some x)
    (Hy : array_get (actions props) j = Some y)
    (Mx : marked_selected (row_element props x))
    (My : marked_selected (row_element props y)) :
  i = j.
Proof.
  assert (Sx : strict_equal_opt (selectedAction props) x = true).
  { unfold marked_selected in Mx. rewrite row_element_className in Mx.
    destruct (strict_equal_opt (selectedAction props) x); [reflexivity|].
    destruct (strict_equal_opt (highlightedAction props) x);
      destruct Mx as [H|H]; discriminate H. }
  assert (Sy : strict_equal_opt (selectedAction props) y = true).
  { unfold marked_selected in My. rewrite row_element_className in My.
    destruct (strict_equal_opt (selectedAction props) y); [reflexivity|].
    destruct (strict_equal_opt (highlightedAction props) y);
      destruct My as [H|H]; discriminate H. }
  apply strict_equal_opt_true in Sx. apply strict_equal_opt_true in Sy.
  destruct Sx as [s [Hs Hsx]]. destruct Sy as [s' [Hs' Hsy]].
  rewrite Hs in Hs'. injection Hs' as <-.
  apply (distinct_objects_position (actions props) i j x y Hnd Hx Hy).
  unfold same_object in *. congruence.
Qed.

End RowDisplay.

Section RepeatedPresses.

Context {host : Host}.

Lemma press_arrow (props : ActionListProps) (key : string) (y : ActionTraceEvent) :
  key = "ArrowDown"%string \/ key = "ArrowUp"%string ->
  array_get (actions props) (newIndex props key) = Some y ->
  press key props = with_selected props y.
Proof.
  intros Hkey Hy. unfold press.
  rewrite (ActionList_onKeyDown_onSelected props _ key Hkey), Hy. reflexivity.
Qed.

(** What repeated ArrowDown presses keep and reach, from no selection. *)
Lemma presses_ArrowDown_invariant (props : ActionListProps) (n : nat) :
  distinct_objects (actions props) ->
  actions props <> [] ->
  selectedAction props = None ->
  exists a,
    presses (S n) "ArrowDown" props = with_selected props a
    /\ array_get (actions props) (Z.min (Z.of_nat n) (array_length (actions props) - 1)) = Some a.
Proof.
  intros Hnd Hne Hsel. pose proof (array_length_positive _ _ Hne) as Hpos.
  induction n as [|n IH].
  - destruct (array_get_in_range _ (actions props) 0) as [a Ha]; [lia|].
    exists a. split.
    + cbn [presses]. apply press_arrow; [left; reflexivity|].
      rewrite newIndex_ArrowDown. unfold index. rewrite Hsel. exact Ha.
    + rewrite Z.min_l by lia. exact Ha.
  - destruct IH as [a [Hp Ha]].
    set (m := Z.min (Z.of_nat n) (array_length (actions props) - 1)) in *.
    destruct (array_get_in_range _ (actions props)
                (Z.min (Z.of_nat (S n)) (array_length (actions props) - 1))) as [b Hb]; [lia|].
    exists b. split; [|exact Hb].
    change (presses (S (S n)) "ArrowDown" props)
      with (press "ArrowDown" (presses (S n) "ArrowDown" props)).
    rewrite Hp.
    assert (Hi : index (with_selected props a) = m).
    { apply (index_of_member (with_selected props a) m a a);
        [exact Hnd|reflexivity|exact Ha|reflexivity]. }
    rewrite (press_arrow (with_selected props a) "ArrowDown" b); [reflexivity|left; reflexivity|].
    rewrite newIndex_ArrowDown, Hi.
    change (actions (with_selected props a)) with (actions props).
    destruct (Z.eqb_spec m (-1)) as [E|_]; [unfold m in E; lia|].
    replace (Z.min (m + 1) (array_length (actions props) - 1))
      with (Z.min (Z.of_nat (S n)) (array_length (actions props) - 1)) by (unfold m; lia).
    exact Hb.
Qed.

(** X18. Starting with nothing selected in a non-empty list of distinct
    objects, with the host making each [onSelected] argument the next
    selection, [n + 1] presses of ArrowDown select the item at position
    [min n (length - 1)]: the presses walk the list in order and stop at
    the last item. *)
Theorem repeated_ArrowDown_walks_to_the_end (props : ActionListProps) (n : nat)
    (Hnd : distinct_objects (actions props))
    (Hne : actions props <> [])
    (Hsel : selectedAction props = None) :
  selectedAction (presses (S n) "ArrowDown" props) =
  array_get (actions props) (Z.min (Z.of_nat n) (array_length (actions props) - 1))
  /\ actions (presses (S n) "ArrowDown" props) = actions props
  /\ selectedAction (presses (S n) "ArrowDown" props) <> None.
Proof.
  destruct (presses_ArrowDown_invariant props n Hnd Hne Hsel) as [a [Hp Ha]].
  rewrite Hp, Ha. repeat split. discriminate.
Qed.

(** What repeated ArrowUp presses keep and reach, from no selection. *)
Lemma presses_ArrowUp_invariant (props : ActionListProps) (n : nat) :
  distinct_objects (actions props) ->
  actions props <> [] ->
  selectedAction props = None ->
  exists a,
    presses (S n) "ArrowUp" props = with_selected props a
    /\ array_get (actions props) (Z.max (array_length (actions props) - 1 - Z.of_nat n) 0)
       = Some a.
Proof.
  intros Hnd Hne Hsel. pose proof (array_length_positive _ _ Hne) as Hpos.
  induction n as [|n IH].
  - destruct (array_get_in_range _ (actions props) (array_length (actions props) - 1))
      as [a Ha]; [lia|].
    exists a. split.
    + cbn [presses]. apply press_arrow; [right; reflexivity|].
      rewrite newIndex_ArrowUp. unfold index. rewrite Hsel. exact Ha.
    + rewrite Z.max_l by lia. rewrite Z.sub_0_r. exact Ha.
  - destruct IH as [a [Hp Ha]].
    set (m := Z.max (array_length (actions props) - 1 - Z.of_nat n) 0) in *.
    destruct (array_get_in_range _ (actions props)
                (Z.max (array_length (actions props) - 1 - Z.of_nat (S n)) 0)) as [b Hb]; [lia|].
    exists b. split; [|exact Hb].
    change (presses (S (S n)) "ArrowUp" props)
      with (press "ArrowUp" (presses (S n) "ArrowUp" props)).
    rewrite Hp.
    assert (Hi : index (with_selected props a) = m).
    { apply (index_of_member (with_selected props a) m a a);
        [exact Hnd|reflexivity|exact Ha|reflexivity]. }
    rewrite (press_arrow (with_selected props a) "ArrowUp" b); [reflexivity|right; reflexivity|].
    rewrite newIndex_ArrowUp, Hi.
    change (actions (with_selected props a)) with (actions props).
    destruct (Z.eqb_spec m (-1)) as [E|_]; [unfold m in E; lia|].
    replace (Z.max (m - 1) 0)
      with (Z.max (array_length (actions props) - 1 - Z.of_nat (S n)) 0) by (unfold m; lia).
    exact Hb.
Qed.

(** X19. Starting with nothing selected in a non-empty list of distinct
    objects, with the host making each [onSelected] argument the next
    selection, [n + 1] presses of ArrowUp select the item at position
    [max (length - 1 - n) 0]: the first press jumps to the last item, the
    next ones walk back in order and stop at the first item. *)
Theorem repeated_ArrowUp_walks_to_the_start (props : ActionListProps) (n : nat)
    (Hnd : distinct_objects (actions props))
    (Hne : actions props <> [])
    (Hsel : selectedAction props = None) :
  selectedAction (presses (S n) "ArrowUp" props) =
  array_get (actions props) (Z.max (array_length (actions props) - 1 - Z.of_nat n) 0)
  /\ actions (presses (S n) "ArrowUp" props) = actions props
  /\ selectedAction (presses (S n) "ArrowUp" props) <> None.
Proof.
  destruct (presses_ArrowUp_invariant props n Hnd Hne Hsel) as [a [Hp Ha]].
  rewrite Hp, Ha. repeat split. discriminate.
Qed.

End RepeatedPresses.

(** * The further properties on concrete inputs *)

Module MoreScenarios.

Import Sample.

Lemma A_B_C_distinct : distinct_objects [A; B; C].
Proof.
  unfold distinct_objects. cbn [map Trace.ref A B C].
  repeat constructor; cbn [In]; intros H; repeat destruct H as [H|H]; try discriminate H;
    exact H.
Qed.

(** The failed navigation shows its URL and its error indicator. *)
Example failed_goto_row :
  child_node (row_dom (props [Sample2.failed_goto] None) Sample2.failed_goto) 0 =
  Some (dom_element (div "action-title") no_listeners
          [dom_element (span "") no_listeners [dom_text "page.goto"];
           dom_element (div_titled "action-url" "https://example.com") no_listeners
             [dom_text "https://example.com"]])
  /\ child_node (row_dom (props [Sample2.failed_goto] None) Sample2.failed_goto) 3 =
     Some (dom_element (div_titled "codicon codicon-issues" "net::ERR_ABORTED")
             no_listeners []).
Proof. split; reflexivity. Qed.

(** X3, ArrowUp on [[A; B]]. *)
Lemma onSelected_undefined_iff_empty_witness :
  ("ArrowUp"%string = "ArrowDown"%string \/ "ArrowUp"%string = "ArrowUp"%string)
  /\ (onSelected_calls (trace (ActionList_onKeyDown (props [A; B] (Some A)) js_null "ArrowUp"))
      = [None]
      <-> actions (props [A; B] (Some A)) = []).
Proof.
  assert (Hkey : "ArrowUp"%string = "ArrowDown"%string \/ "ArrowUp"%string = "ArrowUp"%string)
    by (right; reflexivity).
  split; [exact Hkey|].
  exact (proj1 (proj2 (onSelected_undefined_iff_empty
                         (props [A; B] (Some A)) js_null "ArrowUp" Hkey))).
Defined.

(** X5, ArrowDown on the rendered [[A; B; C]] with [A] selected. *)
Lemma keyboard_scrolls_selected_row_witness :
  actions (props [A; B; C] (Some A)) <> []
  /\ array_length (actions (props [A; B; C] (Some A))) <= 2 ^ 32
  /\ exists item,
       In item (actions (props [A; B; C] (Some A)))
       /\ onSelected_calls
            (trace (ActionList_onKeyDown (props [A; B; C] (Some A))
                      (actionListRef_mounted (props [A; B; C] (Some A))) "ArrowDown"))
          = [Some item]
       /\ scroll_calls
            (trace (ActionList_onKeyDown (props [A; B; C] (Some A))
                      (actionListRef_mounted (props [A; B; C] (Some A))) "ArrowDown"))
          = [@scroll_request host (row_element (props [A; B; C] (Some A)) item)].
Proof.
  assert (Hne : actions (props [A; B; C] (Some A)) <> []) by discriminate.
  assert (Hlen : array_length (actions (props [A; B; C] (Some A))) <= 2 ^ 32)
    by (vm_compute; discriminate).
  split; [exact Hne|]. split; [exact Hlen|].
  exact (keyboard_scrolls_selected_row (props [A; B; C] (Some A)) "ArrowDown"
           Hne Hlen (or_introl eq_refl)).
Defined.

(** X6, ArrowDown on [[A; B; C]] with [C] selected. *)
Lemma ArrowDown_on_last_stays_witness :
  onSelected_calls (trace (ActionList_onKeyDown (props [A; B; C] (Some C)) js_null "ArrowDown"))
  = [Some C].
Proof.
  apply (ArrowDown_on_last_stays (props [A; B; C] (Some C)) js_null [A; B] C C).
  - exact A_B_C_distinct.
  - reflexivity.
  - reflexivity.
  - reflexivity.
Defined.

(** X7, ArrowUp on [[A; B; C]] with [A] selected. *)
Lemma ArrowUp_on_first_stays_witness :
  onSelected_calls (trace (ActionList_onKeyDown (props [A; B; C] (Some A)) js_null "ArrowUp"))
  = [Some A].
Proof.
  apply (ArrowUp_on_first_stays (props [A; B; C] (Some A)) js_null A A [B; C]);
    reflexivity.
Defined.

(** X8, from [A] down to [B] and back. *)
Lemma ArrowDown_then_ArrowUp_returns_witness :
  onSelected_calls (trace (ActionList_onKeyDown (props [A; B; C] (Some A)) js_null "ArrowDown"))
  = [Some B]
  /\ onSelected_calls
       (trace (ActionList_onKeyDown (with_selected (props [A; B; C] (Some A)) B)
                 js_null "ArrowUp"))
     = [Some A].
Proof.
  apply (ArrowDown_then_ArrowUp_returns (props [A; B; C] (Some A)) js_null js_null 0 A B A).
  - exact A_B_C_distinct.
  - reflexivity.
  - reflexivity.
  - reflexivity.
  - reflexivity.
Defined.

(** X9, from [B] up to [A] and back. *)
Lemma ArrowUp_then_ArrowDown_returns_witness :
  onSelected_calls (trace (ActionList_onKeyDown (props [A; B; C] (Some B)) js_null "ArrowUp"))
  = [Some A]
  /\ onSelected_calls
       (trace (ActionList_onKeyDown (with_selected (props [A; B; C] (Some B)) A)
                 js_null "ArrowDown"))
     = [Some B].
Proof.
  apply (ArrowUp_then_ArrowDown_returns (props [A; B; C] (Some B)) js_null js_null 1 B A B).
  - exact A_B_C_distinct.
  - reflexivity.
  - reflexivity.
  - reflexivity.
  - reflexivity.
Defined.

(** X11, a click on the icon area of the second row of [[A; C]]. *)
Lemma click_in_list_reaches_its_row_witness :
  dispatch_click (list_dom (props [A; C] None)) [0; 1; 2]%nat =
  dispatch_click (row_dom (props [A; C] None) C) [2%nat].
Proof.
  apply (click_in_list_reaches_its_row (props [A; C] None) 1 C [2%nat]). reflexivity.
Defined.

(** X12, the rendered empty list. *)
Lemma empty_list_ignores_clicks_witness :
  dispatch_click (list_dom (props [] None)) [0; 0]%nat = ret tt.
Proof.
  apply (empty_list_ignores_clicks (props [] None)). reflexivity.
Defined.

(** X17, the row of [B] in [[A; B; C]] with [B] selected. *)
Lemma at_most_one_row_marked_selected_witness :
  marked_selected (row_element (props [A; B; C] (Some B)) B) /\ 1 = 1.
Proof.
  assert (M : marked_selected (row_element (props [A; B; C] (Some B)) B))
    by (left; reflexivity).
  split; [exact M|].
  apply (at_most_one_row_marked_selected (props [A; B; C] (Some B)) 1 1 B B).
  - exact A_B_C_distinct.
  - reflexivity.
  - reflexivity.
  - exact M.
  - exact M.
Defined.

(** X18, five presses of ArrowDown on [[A; B; C]]. *)
Lemma repeated_ArrowDown_witness :
  selectedAction (presses 5 "ArrowDown" (props [A; B; C] None)) = Some C.
Proof.
  apply (repeated_ArrowDown_walks_to_the_end (props [A; B; C] None) 4).
  - exact A_B_C_distinct.
  - discriminate.
  - reflexivity.
Defined.

(** X19, two presses of ArrowUp on [[A; B; C]]. *)
Lemma repeated_ArrowUp_witness :
  selectedAction (presses 2 "ArrowUp" (props [A; B; C] None)) = Some B.
Proof.
  apply (repeated_ArrowUp_walks_to_the_start (props [A; B; C] None) 1).
  - exact A_B_C_distinct.
  - discriminate.
  - reflexivity.
Defined.

End MoreScenarios.
